(** * haystack-search-app: the session controller of [app.py]

    A shallow embedding of [src/app.py] and the proofs of the properties
    its specification states.

    The program is file-handling glue around the Haystack library: it
    keeps one directory of uploaded files per user id under a sessions
    directory, and on every search it rebuilds an in-memory document
    store from the files of one user and asks an extractive
    question-answering pipeline for answers.

    - Python [str] values are [string]s holding the UTF-8 encoding of
      the text; [bytes] values are [list byte].
    - The files under [SESSIONS_DIR] are a finite map from the name of a
      user directory to a tree of directories and regular files.
    - Functions that touch the file system or the document store, or
      that can raise, live in a state-and-exception monad [M] over
      [world].
    - The Haystack objects ([PDFToTextConverter], [TextConverter],
      [DocxToTextConverter], [PreProcessor], [ExtractiveQAPipeline])
      and [tempfile.gettempdir()] are not part of the program: they are
      the fields of the class [Haystack], and every statement holds for
      all of its instances; what a statement needs from them is a named
      hypothesis.
    - A user id names an entry of [SESSIONS_DIR]: the model follows the
      program for ids that are a single path component, which the ids
      it makes with [uuid.uuid4()] are ([uuid_is_component]).
    - Calls run one after the other.  Permissions, full disks and
      limits on the length of names are left out: an operation on the
      file system fails only for the shape of the tree it meets. *)

From Stdlib Require Import String Ascii List ZArith Lia DecimalString.
From Stdlib.Strings Require Import Byte.
From stdpp Require Import base option gmap strings list fin_maps.

Local Open Scope string_scope.
Local Open Scope list_scope.

(** ** Python strings *)

Module Py.

(** The line feed, ["\n"]. *)
Definition LF : ascii := ascii_of_nat 10.

Definition is_upper (c : ascii) : bool :=
  (65 <=? nat_of_ascii c)%nat && (nat_of_ascii c <=? 90)%nat.

(** [str.lower] on the ASCII letters.  A code point outside ASCII is
    left as it is; no such code point lowers to one of the characters
    of [".pdf"], [".txt"] or [".docx"], so the test the program makes
    with the lowered extension is the one Python makes. *)
Definition lower_char (c : ascii) : ascii :=
  if is_upper c then ascii_of_nat (nat_of_ascii c + 32) else c.

Fixpoint lower (s : string) : string :=
  match s with
  | EmptyString => EmptyString
  | String c r => String (lower_char c) (lower r)
  end.

(** [s.replace(old, new)] for one-character [old] and [new]. *)
Fixpoint replace (old new : ascii) (s : string) : string :=
  match s with
  | EmptyString => EmptyString
  | String c r =>
      String (if Ascii.eqb c old then new else c) (replace old new r)
  end.

Definition of_codes (l : list nat) : string :=
  string_of_list_ascii (List.map ascii_of_nat l).

(** The characters [str.strip()] removes, each as its UTF-8 encoding:
    U+0009..U+000D, U+001C..U+0020, U+0085, U+00A0, U+1680,
    U+2000..U+200A, U+2028, U+2029, U+202F, U+205F, U+3000. *)
Definition whitespace : list string :=
  List.map of_codes
    [ [9]; [10]; [11]; [12]; [13]; [28]; [29]; [30]; [31]; [32];
      [194; 133]; [194; 160]; [225; 154; 128];
      [226; 128; 128]; [226; 128; 129]; [226; 128; 130];
      [226; 128; 131]; [226; 128; 132]; [226; 128; 133];
      [226; 128; 134]; [226; 128; 135]; [226; 128; 136];
      [226; 128; 137]; [226; 128; 138];
      [226; 128; 168]; [226; 128; 169]; [226; 128; 175];
      [226; 129; 159]; [227; 128; 128] ].

Fixpoint drop (n : nat) (s : string) : string :=
  match n, s with
  | O, _ => s
  | S _, EmptyString => EmptyString
  | S n', String _ r => drop n' r
  end.

Fixpoint take (n : nat) (s : string) : string :=
  match n, s with
  | O, _ => EmptyString
  | S _, EmptyString => EmptyString
  | S n', String c r => String c (take n' r)
  end.

(** Remove leading members of [pats]; every round removes at least
    one character, so [String.length s] rounds are enough. *)
Fixpoint lstrip_go (pats : list string) (fuel : nat) (s : string) : string :=
  match fuel with
  | O => s
  | S fuel' =>
      match List.find (fun p => String.prefix p s) pats with
      | Some p => lstrip_go pats fuel' (drop (String.length p) s)
      | None => s
      end
  end.

Definition lstrip (s : string) : string :=
  lstrip_go whitespace (String.length s) s.

Definition rstrip (s : string) : string :=
  String.rev
    (lstrip_go (List.map String.rev whitespace) (String.length s)
       (String.rev s)).

Definition strip (s : string) : string := rstrip (lstrip s).

(** [sep.join(parts)] *)
Fixpoint join (sep : string) (parts : list string) : string :=
  match parts with
  | [] => EmptyString
  | [p] => p
  | p :: rest => p +:+ sep +:+ join sep rest
  end.

(** [str(n)] for a non-negative [int]. *)
Definition str_of_nat (n : nat) : string :=
  NilZero.string_of_uint (Nat.to_uint n).

(** How an f-string shows the result of [dict.get]: the value, or
    [None]. *)
Definition format_get (o : option string) : string :=
  match o with
  | Some s => s
  | None => "None"
  end.

End Py.



(** ** [os.path] (posixpath) *)

Module OsPath.

Definition sep : ascii := "/"%char.
Definition extsep : ascii := "."%char.

Fixpoint contains (c : ascii) (s : string) : bool :=
  match s with
  | EmptyString => false
  | String a r => Ascii.eqb a c || contains c r
  end.

Definition startswith (c : ascii) (s : string) : bool :=
  match s with
  | String a _ => Ascii.eqb a c
  | EmptyString => false
  end.

Fixpoint endswith (c : ascii) (s : string) : bool :=
  match s with
  | EmptyString => false
  | String a EmptyString => Ascii.eqb a c
  | String _ r => endswith c r
  end.

(** [os.path.join(a, b)] *)
Definition join (a b : string) : string :=
  if startswith sep b then b
  else if (String.length a =? 0)%nat || endswith sep a then a +:+ b
  else a +:+ String sep b.

(** [os.path.basename(p)]: what follows the last separator. *)
Fixpoint basename (p : string) : string :=
  match p with
  | EmptyString => EmptyString
  | String c r =>
      if contains sep r then basename r
      else if Ascii.eqb c sep then r
      else p
  end.

(** [p.rfind(c)]: the last index of [c], or [-1]. *)
Fixpoint rfind_go (c : ascii) (s : string) (i last : Z) : Z :=
  match s with
  | EmptyString => last
  | String a r => rfind_go c r (i + 1) (if Ascii.eqb a c then i else last)
  end.

Definition rfind (c : ascii) (s : string) : Z := rfind_go c s 0 (-1).

Fixpoint all_chars (c : ascii) (s : string) : bool :=
  match s with
  | EmptyString => true
  | String a r => Ascii.eqb a c && all_chars c r
  end.

(** [os.path.splitext(p)]: the extension starts at the last dot,
    unless that dot comes before the last separator or only dots stand
    between the separator and it. *)
Definition splitext (p : string) : string * string :=
  let sepIndex := rfind sep p in
  let dotIndex := rfind extsep p in
  if (sepIndex <? dotIndex)%Z then
    let filenameIndex := Z.to_nat (sepIndex + 1) in
    if all_chars extsep
         (Py.take (Z.to_nat dotIndex - filenameIndex) (Py.drop filenameIndex p))
    then (p, EmptyString)
    else (Py.take (Z.to_nat dotIndex) p, Py.drop (Z.to_nat dotIndex) p)
  else (p, EmptyString).

End OsPath.

(** ** Exceptions, the file system, the document store *)

Inductive exn : Type :=
| FileExistsError (path : string)
| FileNotFoundError (path : string)
| IsADirectoryError (path : string)
| NotADirectoryError (path : string)
| ValueError (msg : string)
| HaystackError (msg : string).

Inductive outcome (A : Type) : Type :=
| Ok (a : A)
| Raise (e : exn).

Arguments Ok {A} a.
Arguments Raise {A} e.

#[global] Instance outcome_ret : MRet outcome := fun A a => Ok a.
#[global] Instance outcome_bind : MBind outcome := fun A B f m =>
  match m with
  | Ok a => f a
  | Raise e => Raise e
  end.
#[global] Instance outcome_fmap : FMap outcome := fun A B f m =>
  match m with
  | Ok a => Ok (f a)
  | Raise e => Raise e
  end.

(** A directory entry is a regular file with its bytes or a directory
    with its entries, in the order a directory scan gives them. *)
#[warnings="-register-all"]
Inductive node : Type :=
| File (data : list byte)
| Dir (entries : list (string * node)).

(** A [haystack.schema.Document] and a [haystack.schema.Answer], with
    the attributes the program uses. *)
Record Document : Type := mkDocument {
  content : string;
  meta : gmap string string
}.

Record Answer : Type := mkAnswer {
  context : string;
  answer_meta : gmap string string
}.

(** An uploaded file: its [name] and what [read()] returns. *)
Record UploadedFile : Type := mkUploadedFile {
  name : string;
  read : list byte
}.

(** The state the program works on: the entries of [SESSIONS_DIR] and
    the documents held by the global [document_store]. *)
Record world : Type := mkWorld {
  fs : gmap string node;
  document_store : list Document
}.

Definition set_fs (f : gmap string node -> gmap string node) (w : world) : world :=
  mkWorld (f (fs w)) (document_store w).

Definition set_store (f : list Document -> list Document) (w : world) : world :=
  mkWorld (fs w) (f (document_store w)).

(** State and exceptions: a call returns or raises, and leaves a world
    behind in both cases. *)
Definition M (A : Type) : Type := world -> outcome A * world.

#[global] Instance M_ret : MRet M := fun A a w => (Ok a, w).
#[global] Instance M_bind : MBind M := fun A B f m w =>
  match m w with
  | (Ok a, w') => f a w'
  | (Raise e, w') => (Raise e, w')
  end.

Definition lift {A : Type} (o : outcome A) : M A := fun w => (o, w).

(** [for x in xs: body(x)] *)
Fixpoint for_each {A : Type} (xs : list A) (body : A -> M unit) : M unit :=
  match xs with
  | [] => mret tt
  | x :: rest => body x;; for_each rest body
  end.

(** *** Directories *)

Definition is_file (n : node) : bool :=
  match n with File _ => true | Dir _ => false end.

Fixpoint entry_lookup (nm : string) (es : list (string * node)) : option node :=
  match es with
  | [] => None
  | (k, n) :: rest => if String.eqb k nm then Some n else entry_lookup nm rest
  end.

(** The entry [nm] now holds [n]: in place when the name exists, as a
    new last entry otherwise. *)
Fixpoint entry_store (nm : string) (n : node) (es : list (string * node))
  : list (string * node) :=
  match es with
  | [] => [(nm, n)]
  | (k, n') :: rest =>
      if String.eqb k nm then (k, n) :: rest
      else (k, n') :: entry_store nm n rest
  end.

Definition dirnames (es : list (string * node)) : list string :=
  List.map fst (List.filter (fun e => negb (is_file (snd e))) es).

Definition regular_files (es : list (string * node)) : list (string * list byte) :=
  flat_map (fun e => match snd e with File d => [(fst e, d)] | Dir _ => [] end) es.

(** One step of [os.walk]: the directory reached, the names of its
    subdirectories, and its regular files; every file name comes with
    the bytes a reader of that file gets. *)
Record walk_item : Type := mkWalkItem {
  root : string;
  dirs : list string;
  files : list (string * list byte)
}.

(** [os.walk(top)], top-down: the directory itself, then each
    subdirectory in turn.  A [top] that is not a directory yields
    nothing. *)
Fixpoint os_walk (top : string) (n : node) {struct n} : list walk_item :=
  match n with
  | File _ => []
  | Dir es =>
      mkWalkItem top (dirnames es) (regular_files es) ::
      (fix subdirs (l : list (string * node)) : list walk_item :=
         match l with
         | [] => []
         | (nm, child) :: rest => os_walk (OsPath.join top nm) child ++ subdirs rest
         end) es
  end.

(** What the program can name inside a directory: a name that is not
    empty, not [.] or [..], and holds no separator and no NUL. *)
Definition NUL : ascii := ascii_of_nat 0.

Definition is_component (s : string) : bool :=
  negb (String.eqb s "") && negb (String.eqb s ".") && negb (String.eqb s "..")
  && negb (OsPath.contains OsPath.sep s) && negb (OsPath.contains NUL s).

(** Induction on a tree, with the property at hand for every entry of
    a directory. *)
Fixpoint node_induction (P : node -> Prop)
  (HF : forall d, P (File d))
  (HD : forall es, Forall (fun e => P (snd e)) es -> P (Dir es))
  (n : node) {struct n} : P n :=
  match n with
  | File d => HF d
  | Dir es =>
      HD es
        ((fix go (l : list (string * node)) : Forall (fun e => P (snd e)) l :=
            match l return Forall (fun e => P (snd e)) l with
            | [] => @List.Forall_nil _ (fun e => P (snd e))
            | (nm, child) :: rest =>
                @List.Forall_cons _ (fun e => P (snd e)) (nm, child) rest
                  (node_induction P HF HD child) (go rest)
            end) es)
  end.

(** A path that is not empty and does not end with a separator. *)
Definition clean (p : string) : Prop :=
  p ≠ "" /\ OsPath.endswith OsPath.sep p = false.

(** *** Well-formed directories

    In a directory no two entries share a name, and every name is one
    the program can use. *)

Fixpoint distinct (l : list string) : bool :=
  match l with
  | [] => true
  | x :: rest => negb (existsb (String.eqb x) rest) && distinct rest
  end.

Fixpoint wf_node (n : node) {struct n} : bool :=
  match n with
  | File _ => true
  | Dir es =>
      distinct (List.map fst es) &&
      (fix all (l : list (string * node)) : bool :=
         match l with
         | [] => true
         | (nm, child) :: rest => is_component nm && wf_node child && all rest
         end) es
  end.

(** A directory that holds regular files only. *)
Definition flat (es : list (string * node)) : bool :=
  forallb (fun e => is_file (snd e)) es.

(** *** Accepted formats (spec, section 6)

    The extension of a file name is one of [.pdf], [.txt] and [.docx],
    compared without regard to case. *)

Definition accepted_formats : list string := [".pdf"; ".txt"; ".docx"].

Definition same_ignoring_case (a b : string) : bool :=
  String.eqb (Py.lower a) (Py.lower b).

Definition accepted (file : string) : bool :=
  existsb (same_ignoring_case (snd (OsPath.splitext file))) accepted_formats.

(** ** The Haystack library and the environment

    [convert] of a converter takes the path it is given, the bytes it
    finds there and the [meta] dictionary; [process] is
    [PreProcessor.process]; [pipeline_run] is
    [ExtractiveQAPipeline.run] on the documents of the store it was
    built on, with the query and the two [top_k] parameters, and
    returns the [answers] of its prediction. *)

Definition converter : Type :=
  string -> list byte -> gmap string string -> outcome Document.

Class Haystack : Type := {
  gettempdir : string;
  PDFToTextConverter : converter;
  TextConverter : converter;
  DocxToTextConverter : converter;
  process : list Document -> outcome (list Document);
  pipeline_run : list Document -> string -> nat -> nat -> outcome (list Answer)
}.

(** Modelled from the spec: [InMemoryDocumentStore] is a class of the
    Haystack library; its [delete_documents] and [write_documents] are
    the two halves of the spec's [reset_and_load] (section 4.3): the
    first leaves the index empty, the second adds the given passages
    to it. *)
Definition delete_documents : M unit :=
  fun w => (Ok tt, set_store (fun _ => []) w).

Definition write_documents (docs : list Document) : M unit :=
  fun w => (Ok tt, set_store (fun st => st ++ docs) w).

Section App.

Context `{H : Haystack}.

(** [SESSIONS_DIR = os.path.join(tempfile.gettempdir(), "haystack_user_sessions")] *)
Definition SESSIONS_DIR : string :=
  OsPath.join gettempdir "haystack_user_sessions".

(** The global [converters] dictionary. *)
Definition converters : gmap string converter :=
  <[".pdf" := PDFToTextConverter]>
    (<[".txt" := TextConverter]>
       (<[".docx" := DocxToTextConverter]> ∅)).

(** [os.makedirs(os.path.join(SESSIONS_DIR, user_id), exist_ok=...)] *)
Definition makedirs (user_id : string) (exist_ok : bool) : M unit :=
  fun w =>
    match fs w !! user_id with
    | None => (Ok tt, set_fs (insert user_id (Dir [])) w)
    | Some (Dir _) =>
        if exist_ok then (Ok tt, w)
        else (Raise (FileExistsError (OsPath.join SESSIONS_DIR user_id)), w)
    | Some (File _) =>
        (Raise (FileExistsError (OsPath.join SESSIONS_DIR user_id)), w)
    end.

(** [shutil.rmtree(os.path.join(SESSIONS_DIR, user_id))] *)
Definition rmtree (user_id : string) : M unit :=
  fun w =>
    match fs w !! user_id with
    | None =>
        (Raise (FileNotFoundError (OsPath.join SESSIONS_DIR user_id)), w)
    | Some (File _) =>
        (Raise (NotADirectoryError (OsPath.join SESSIONS_DIR user_id)), w)
    | Some (Dir _) => (Ok tt, set_fs (delete user_id) w)
    end.

(** [with open(dest_path, "wb") as f: f.write(data)] where [dest_path]
    is [file_name] joined to the directory of [user_id]; [file_name]
    is a base name, so it holds no separator. *)
Definition open_wb_write (user_id file_name : string) (data : list byte) : M unit :=
  fun w =>
    let dest_path := OsPath.join (OsPath.join SESSIONS_DIR user_id) file_name in
    if OsPath.contains NUL file_name then
      (Raise (ValueError "embedded null byte"), w)
    else if String.eqb file_name "" || String.eqb file_name "."
            || String.eqb file_name ".." then
      (Raise (IsADirectoryError dest_path), w)
    else
      match fs w !! user_id with
      | None => (Raise (FileNotFoundError dest_path), w)
      | Some (File _) => (Raise (NotADirectoryError dest_path), w)
      | Some (Dir es) =>
          match entry_lookup file_name es with
          | Some (Dir _) => (Raise (IsADirectoryError dest_path), w)
          | _ =>
              (Ok tt,
               set_fs (insert user_id (Dir (entry_store file_name (File data) es))) w)
          end
      end.

(** [os.walk] of the directory of [user_id], as the file system is
    now. *)
Definition session_walk (user_id : string) (w : world) : list walk_item :=
  match fs w !! user_id with
  | Some n => os_walk (OsPath.join SESSIONS_DIR user_id) n
  | None => []
  end.

Definition walk_user_dir (user_id : string) : M (list walk_item) :=
  fun w => (Ok (session_walk user_id w), w).

(** *** The program *)

Definition get_user_dir (user_id : string) : M string :=
  let user_dir := OsPath.join SESSIONS_DIR user_id in
  makedirs user_id true;;
  mret user_dir.

Definition add_files (user_id : string) (files : list UploadedFile) : M string :=
  user_dir ← get_user_dir user_id;
  for_each files (fun file =>
    open_wb_write user_id (OsPath.basename (name file)) (read file));;
  mret (Py.str_of_nat (length files) +:+ " fichier(s) ajouté(s).").

Definition delete_files (user_id : string) : M string :=
  user_dir ← get_user_dir user_id;
  rmtree user_id;;
  makedirs user_id false;;
  mret "Tous les fichiers ont été supprimés.".

(** The body of the inner loop of [run_search] for one [file] of
    [root]: the documents it appends to [all_docs]. *)
Definition load_file (root file : string) (data : list byte)
  : outcome (list Document) :=
  let filepath := OsPath.join root file in
  let ext := Py.lower (snd (OsPath.splitext file)) in
  match converters !! ext with
  | Some converter =>
      doc ← converter filepath data
               (<["name" := file]> (<["path" := filepath]> ∅));
      process [doc]
  | None => Ok []
  end.

(** [for file in files: ...] *)
Fixpoint load_files (root : string) (fl : list (string * list byte))
  (all_docs : list Document) : outcome (list Document) :=
  match fl with
  | [] => Ok all_docs
  | (file, data) :: rest =>
      docs ← load_file root file data;
      load_files root rest (all_docs ++ docs)
  end.

(** [for root, _, files in os.walk(user_dir): ...] *)
Fixpoint load_walk (items : list walk_item) (all_docs : list Document)
  : outcome (list Document) :=
  match items with
  | [] => Ok all_docs
  | it :: rest =>
      all_docs' ← load_files (root it) (files it) all_docs;
      load_walk rest all_docs'
  end.

(** The block of one answer. *)
Definition render_answer (ans : Answer) : string :=
  let context := Py.replace Py.LF " " (Py.strip (context ans)) in
  "**Extrait :** " +:+ context +:+ String Py.LF (String Py.LF "**Fichier :** ")
  +:+ Py.format_get (answer_meta ans !! "name")
  +:+ String Py.LF "**Chemin :** "
  +:+ Py.format_get (answer_meta ans !! "path").

(** [for ans in answers: ... results.append(result)] *)
Fixpoint render_loop (answers : list Answer) (results : list string) : list string :=
  match answers with
  | [] => results
  | ans :: rest => render_loop rest (results ++ [render_answer ans])
  end.

Definition divider : string := String Py.LF ("---" +:+ String Py.LF "").

(** [pipeline.run(query=query, params={"Retriever": {"top_k": k1},
    "Reader": {"top_k": k2}})["answers"]]: the pipeline reads the
    global document store. *)
Definition run_pipeline (query : string) (k1 k2 : nat) : M (list Answer) :=
  fun w => (pipeline_run (document_store w) query k1 k2, w).

(** [run_search], lines 58 to 69: the documents of every file found
    under the directory of the user. *)
Definition load_session (user_id : string) : M (list Document) :=
  user_dir ← get_user_dir user_id;
  walk ← walk_user_dir user_id;
  lift (load_walk walk []).

(** Lines 71 and 72. *)
Definition reset_and_load (all_docs : list Document) : M unit :=
  delete_documents;;
  write_documents all_docs.

(** Lines 58 to 75: the [answers] of the prediction. *)
Definition search_answers (user_id query : string) : M (list Answer) :=
  all_docs ← load_session user_id;
  reset_and_load all_docs;;
  run_pipeline query 10 5.

(** Lines 77 to 83. *)
Definition render_results (answers : list Answer) : string :=
  let results := render_loop answers [] in
  match results with
  | [] => "Aucun passage trouvé."
  | _ => Py.join divider results
  end.

Definition run_search (user_id query : string) : M string :=
  answers ← search_answers user_id query;
  mret (render_results answers).

(** The two halves of a search around the shared index: lines 58 to
    72 fill it, lines 74 to 83 read it. *)
Definition index_session (user_id : string) : M unit :=
  all_docs ← load_session user_id;
  reset_and_load all_docs.

Definition answer_query (query : string) : M string :=
  answers ← run_pipeline query 10 5;
  mret (render_results answers).

(** *** What the specification talks about *)

(** The spec's [list_session_files]: every regular file an [os.walk]
    of the directory of the user reaches, as the directory it is in,
    its base name and its bytes. *)
Definition files_of_walk (items : list walk_item)
  : list (string * string * list byte) :=
  flat_map (fun it => List.map (fun f => (root it, fst f, snd f)) (files it)) items.

Definition list_session_files (user_id : string) (w : world)
  : list (string * string * list byte) :=
  files_of_walk (session_walk user_id w).

(** The entries directly in the directory of the user. *)
Definition session_entries (user_id : string) (w : world) : list (string * node) :=
  match fs w !! user_id with
  | Some (Dir es) => es
  | _ => []
  end.

(** A regular file stands where the directory of the user should
    be. *)
Definition blocked (user_id : string) (w : world) : bool :=
  match fs w !! user_id with
  | Some (File _) => true
  | _ => false
  end.

(** The world once the directory of the user exists. *)
Definition with_user_dir (user_id : string) (w : world) : world :=
  match fs w !! user_id with
  | None => set_fs (insert user_id (Dir [])) w
  | Some _ => w
  end.

(** A subdirectory of the directory of the user is called [nm]. *)
Definition is_subdir (user_id nm : string) (w : world) : bool :=
  match entry_lookup nm (session_entries user_id w) with
  | Some (Dir _) => true
  | _ => false
  end.

(** The world once [nm] in the directory of the user holds [data]. *)
Definition store_file (user_id nm : string) (data : list byte) (w : world) : world :=
  set_fs
    (insert user_id (Dir (entry_store nm (File data) (session_entries user_id w))))
    w.

Definition store_upload (user_id : string) (w : world) (file : UploadedFile) : world :=
  store_file user_id (OsPath.basename (name file)) (read file) w.

(** An upload the program can write: its base name is a usable file
    name and no subdirectory of the directory of the user has it. *)
Definition writable (user_id : string) (w : world) (file : UploadedFile) : Prop :=
  is_component (OsPath.basename (name file)) = true /\
  is_subdir user_id (OsPath.basename (name file)) w = false.

(** The documents a list of stored files contributes, file by file. *)
Fixpoint contributions (fl : list (string * string * list byte))
  : outcome (list Document) :=
  match fl with
  | [] => Ok []
  | (r, file, data) :: rest =>
      docs ← load_file r file data;
      more ← contributions rest;
      Ok (docs ++ more)
  end.

(** [path] lies under the directory [d]. *)
Definition under (d path : string) : bool :=
  String.prefix (d +:+ "/") path.

End App.

(** The library with another pipeline in the place of its own. *)
Definition with_pipeline (H : Haystack)
  (p : list Document -> string -> nat -> nat -> outcome (list Answer)) : Haystack :=
  {| gettempdir := @gettempdir H;
     PDFToTextConverter := @PDFToTextConverter H;
     TextConverter := @TextConverter H;
     DocxToTextConverter := @DocxToTextConverter H;
     process := @process H;
     pipeline_run := p |}.

(** *** What the program relies on from the library (spec, section 4.3) *)

(** The pipeline returns at most as many answers as the [top_k] of its
    reader allows. *)
Definition reader_top_k_bound (H : Haystack) : Prop :=
  forall st q k1 k2 answers,
    pipeline_run st q k1 k2 = Ok answers -> length answers <= k2.

(** An answer carries the metadata of a document of the store. *)
Definition answers_from_store (H : Haystack) : Prop :=
  forall st q k1 k2 answers,
    pipeline_run st q k1 k2 = Ok answers ->
    forall a, In a answers -> exists d, In d st /\ answer_meta a = meta d.

(** A converter hands the [meta] it is given to its document, and the
    preprocessor hands the metadata of a document to its passages. *)
Definition converters_keep_meta (H : Haystack) : Prop :=
  forall conv,
    In conv [PDFToTextConverter; TextConverter; DocxToTextConverter] ->
    forall path data m d, conv path data m = Ok d -> meta d = m.

Definition process_keeps_meta (H : Haystack) : Prop :=
  forall docs out,
    process docs = Ok out ->
    forall d, In d out -> exists d0, In d0 docs /\ meta d = meta d0.

(** *** User ids

    The program makes its user id with [str(uuid.uuid4())]: 36
    characters, hexadecimal digits in lower case with a dash at the
    positions 8, 13, 18 and 23. *)

Definition is_hex (c : ascii) : bool :=
  let n := nat_of_ascii c in
  ((48 <=? n)%nat && (n <=? 57)%nat) || ((97 <=? n)%nat && (n <=? 102)%nat).

Fixpoint uuid_from (i : nat) (s : string) : bool :=
  match s with
  | EmptyString => (i =? 36)%nat
  | String c rest =>
      (if existsb (Nat.eqb i) [8; 13; 18; 23]
       then Ascii.eqb c "-" else is_hex c)
      && uuid_from (S i) rest
  end.

Definition is_uuid_text (s : string) : bool := uuid_from 0 s.

(** *** The worlds the program makes

    Every entry of [SESSIONS_DIR] is a directory with a usable name,
    holding regular files with usable, distinct names. *)

Definition session_ok (n : node) : bool :=
  match n with
  | Dir es => flat es && wf_node (Dir es)
  | File _ => false
  end.

Definition fs_ok (w : world) : Prop :=
  forall u n, fs w !! u = Some n -> is_component u = true /\ session_ok n = true.

(** One call of the program, for a user id that is a usable name;
    the world is the one the call leaves, whether it returns or
    raises. *)
Inductive step `{H : Haystack} : world -> world -> Prop :=
| step_add_files (u : string) (files : list UploadedFile) (w : world) :
    is_component u = true -> step w (snd (add_files u files w))
| step_delete_files (u : string) (w : world) :
    is_component u = true -> step w (snd (delete_files u w))
| step_run_search (u q : string) (w : world) :
    is_component u = true -> step w (snd (run_search u q w)).

(** The worlds reached from an empty [SESSIONS_DIR]. *)
Inductive reachable `{H : Haystack} : world -> Prop :=
| reachable_start (st : list Document) : reachable (mkWorld ∅ st)
| reachable_step (w w' : world) : reachable w -> step w w' -> reachable w'.

(** ** A small instance of the library

    Text converters that decode the bytes as they are, a preprocessor
    that drops empty documents, and a pipeline that answers with the
    first documents of the store holding the query.  It is what the
    statements below are run on. *)

Module Demo.

Definition decode : converter :=
  fun _ data m => Ok (mkDocument (string_of_list_byte data) m).

Definition holds (query : string) (d : Document) : bool :=
  match String.index 0 query (content d) with
  | Some _ => true
  | None => false
  end.

Definition retrieve (store : list Document) (query : string) (k1 k2 : nat)
  : outcome (list Answer) :=
  Ok (firstn k2
        (List.map (fun d => mkAnswer (content d) (meta d))
           (firstn k1 (List.filter (holds query) store)))).

#[global] Instance haystack : Haystack := {|
  gettempdir := "/tmp";
  PDFToTextConverter := decode;
  TextConverter := decode;
  DocxToTextConverter := decode;
  process := fun docs =>
    Ok (List.filter (fun d => negb (String.eqb (content d) "")) docs);
  pipeline_run := retrieve
|}.

Definition upload (nm text : string) : UploadedFile :=
  mkUploadedFile nm (list_byte_of_string text).

Definition empty_world : world := mkWorld ∅ [].

(** Two user ids, as [str(uuid.uuid4())] gives them. *)
Definition alice : string := "0b6f3c1e-8a52-4d7e-9c41-5e2a7d90b3f4".
Definition bob : string := "f47ac10b-58cc-4372-a567-0e02b2c3d479".

Definition fox : UploadedFile :=
  upload "/tmp/gradio/ab12/doc.txt"
    "The quick brown fox jumps over the lazy dog.".

Definition revised : UploadedFile :=
  upload "/tmp/gradio/cd34/doc.txt" "The fox sleeps.".

Definition notes : UploadedFile :=
  upload "/tmp/gradio/ef56/notes.md" "A brown fox, in notes.".

(** The world after [alice] uploaded [doc.txt]. *)
Definition alice_world : world := snd (add_files alice [fox] empty_world).

(** The world after [bob] uploaded [doc.txt] too. *)
Definition both_world : world := snd (add_files bob [revised] alice_world).

Definition alice_dir : string :=
  "/tmp/haystack_user_sessions/0b6f3c1e-8a52-4d7e-9c41-5e2a7d90b3f4".

Definition fox_meta : gmap string string :=
  <["name" := "doc.txt"]> (<["path" := alice_dir +:+ "/doc.txt"]> ∅).

Definition fox_doc : Document :=
  mkDocument "The quick brown fox jumps over the lazy dog." fox_meta.

Definition fox_answer : Answer :=
  mkAnswer "The quick brown fox jumps over the lazy dog." fox_meta.

Definition bob_dir : string :=
  "/tmp/haystack_user_sessions/f47ac10b-58cc-4372-a567-0e02b2c3d479".

Definition revised_answer : Answer :=
  mkAnswer "The fox sleeps."
    (<["name" := "doc.txt"]> (<["path" := bob_dir +:+ "/doc.txt"]> ∅)).

End Demo.


(** ** The interface (lines 85 to 102)

    One user id is made when the interface is built, and each of the
    three buttons calls its function with that id.  A click on the
    upload button comes with the files that were chosen. *)

Inductive click : Type :=
| upload_button (upload : list UploadedFile)
| delete_button
| search_button (query : string).

Section Interface.

Context `{H : Haystack}.

Definition on_click (user_id : string) (c : click) : M string :=
  match c with
  | upload_button upload => add_files user_id upload
  | delete_button => delete_files user_id
  | search_button query => run_search user_id query
  end.

(** The world after a sequence of clicks; a click whose function
    raises leaves the world that function left. *)
Definition run_clicks (user_id : string) (cs : list click) (w : world) : world :=
  fold_left (fun w' c => snd (on_click user_id c w')) cs w.

End Interface.

(** *** The directory of a user as a dictionary

    The regular files directly in the directory, from name to bytes,
    and what an upload does to it. *)

Definition session_files_map (user_id : string) (w : world)
  : gmap string (list byte) :=
  list_to_map (regular_files (session_entries user_id w)).

Definition put_upload (m : gmap string (list byte)) (file : UploadedFile)
  : gmap string (list byte) :=
  <[OsPath.basename (name file) := read file]> m.

(** ** An instance of the library that fails

    The PDF converter is not installed, and the pipeline refuses an
    empty query. *)

Module Faulty.

Definition no_pdf : converter :=
  fun _ _ _ => Raise (HaystackError "pdftotext is not installed").

Definition strict (store : list Document) (query : string) (k1 k2 : nat)
  : outcome (list Answer) :=
  if String.eqb query "" then Raise (HaystackError "empty query")
  else Demo.retrieve store query k1 k2.

Definition haystack : Haystack := {|
  gettempdir := "/tmp";
  PDFToTextConverter := no_pdf;
  TextConverter := Demo.decode;
  DocxToTextConverter := Demo.decode;
  process := fun docs => Ok docs;
  pipeline_run := strict
|}.

Definition scan : UploadedFile := Demo.upload "/tmp/gradio/gh78/scan.PDF" "%PDF-1.4".

(** The world after [alice] uploaded [doc.txt] and [scan.PDF], with an
    index left by an earlier search. *)
Definition scan_world : world :=
  mkWorld
    (fs (snd (add_files (H := haystack) Demo.alice [Demo.fox; scan] Demo.empty_world)))
    [Demo.fox_doc].

End Faulty.

(** ** An instance of the library that needs documents

    [app.py] builds its pipeline on [InMemoryDocumentStore()] (line
    18) and a [BM25Retriever] over it (line 19), and calls it at line
    74 whatever the store holds.  The retriever of this instance
    cannot query an empty index: the pipeline raises there, and
    answers as the small instance does on an index that holds
    documents. *)

Module Unindexed.

Definition needs_documents (store : list Document) (query : string) (k1 k2 : nat)
  : outcome (list Answer) :=
  match store with
  | [] => Raise (HaystackError "the retriever cannot query an empty index")
  | _ => Demo.retrieve store query k1 k2
  end.

Definition haystack : Haystack := {|
  gettempdir := "/tmp";
  PDFToTextConverter := Demo.decode;
  TextConverter := Demo.decode;
  DocxToTextConverter := Demo.decode;
  process := fun docs =>
    Ok (List.filter (fun d => negb (String.eqb (content d) "")) docs);
  pipeline_run := needs_documents
|}.

End Unindexed.

(** * Properties *)

(** ** Running the monad *)

Lemma bind_run {A B : Type} (m : M A) (f : A -> M B) (w : world) :
  (m ≫= f) w =
  match m w with
  | (Ok a, w') => f a w'
  | (Raise e, w') => (Raise e, w')
  end.
Proof. reflexivity. Qed.

Lemma ret_run {A : Type} (a : A) (w : world) : (mret a : M A) w = (Ok a, w).
Proof. reflexivity. Qed.

Section Facts.

Context `{H : Haystack}.

Lemma get_user_dir_run (u : string) (w : world) :
  get_user_dir u w =
  (if blocked u w
   then Raise (FileExistsError (OsPath.join SESSIONS_DIR u))
   else Ok (OsPath.join SESSIONS_DIR u),
   with_user_dir u w).
Proof.
  unfold get_user_dir, blocked, with_user_dir.
  rewrite bind_run. unfold makedirs.
  destruct (fs w !! u) as [[d|es]|]; reflexivity.
Qed.

Lemma with_user_dir_store (u : string) (w : world) :
  document_store (with_user_dir u w) = document_store w.
Proof. unfold with_user_dir. destruct (fs w !! u); reflexivity. Qed.

Lemma with_user_dir_lookup_ne (u s : string) (w : world) :
  u ≠ s -> fs (with_user_dir u w) !! s = fs w !! s.
Proof.
  intros Hne. unfold with_user_dir.
  destruct (fs w !! u); [reflexivity|].
  simpl. by rewrite lookup_insert_ne.
Qed.

Lemma with_user_dir_lookup (u : string) (w : world) :
  fs (with_user_dir u w) !! u =
  match fs w !! u with
  | Some n => Some n
  | None => Some (Dir [])
  end.
Proof.
  unfold with_user_dir.
  destruct (fs w !! u) eqn:E; [exact E|].
  simpl. by rewrite lookup_insert_eq.
Qed.

Lemma blocked_with_user_dir (u : string) (w : world) :
  blocked u (with_user_dir u w) = blocked u w.
Proof.
  unfold blocked. rewrite with_user_dir_lookup.
  destruct (fs w !! u) as [[d|es]|]; reflexivity.
Qed.

(** Creating the directory of a user adds no file to any listing. *)
Lemma list_session_files_with_user_dir (u s : string) (w : world) :
  list_session_files s (with_user_dir u w) = list_session_files s w.
Proof.
  unfold list_session_files, session_walk.
  destruct (decide (u = s)) as [->|Hne].
  - rewrite with_user_dir_lookup.
    destruct (fs w !! s); reflexivity.
  - by rewrite with_user_dir_lookup_ne.
Qed.

(** *** The loading loops *)

Lemma load_files_acc (r : string) (fl : list (string * list byte))
  (acc : list Document) :
  load_files r fl acc =
  (docs ← contributions (List.map (fun f => (r, fst f, snd f)) fl);
   Ok (acc ++ docs)).
Proof.
  revert acc. induction fl as [|[file data] rest IH]; intros acc; simpl.
  - by rewrite app_nil_r.
  - destruct (load_file r file data) as [docs|e]; simpl; [|reflexivity].
    rewrite IH.
    destruct (contributions _) as [more|e]; simpl; [|reflexivity].
    by rewrite app_assoc.
Qed.

Lemma contributions_app (l1 l2 : list (string * string * list byte)) :
  contributions (l1 ++ l2) =
  (d1 ← contributions l1; d2 ← contributions l2; Ok (d1 ++ d2)).
Proof.
  induction l1 as [|[[r file] data] rest IH]; simpl.
  - destruct (contributions l2); reflexivity.
  - destruct (load_file r file data) as [docs|e]; simpl; [|reflexivity].
    rewrite IH.
    destruct (contributions rest) as [d1|e]; simpl; [|reflexivity].
    destruct (contributions l2) as [d2|e]; simpl; [|reflexivity].
    by rewrite app_assoc.
Qed.

Lemma load_walk_acc (items : list walk_item) (acc : list Document) :
  load_walk items acc =
  (docs ← contributions (files_of_walk items); Ok (acc ++ docs)).
Proof.
  revert acc. induction items as [|it rest IH]; intros acc; simpl.
  - by rewrite app_nil_r.
  - rewrite load_files_acc, contributions_app.
    destruct (contributions (List.map _ (files it))) as [d1|e]; simpl;
      [|reflexivity].
    rewrite IH.
    destruct (contributions (files_of_walk rest)) as [d2|e]; simpl;
      [|reflexivity].
    by rewrite app_assoc.
Qed.

Lemma load_walk_contributions (items : list walk_item) :
  load_walk items [] = contributions (files_of_walk items).
Proof.
  rewrite load_walk_acc.
  destruct (contributions _); reflexivity.
Qed.

(** *** The steps of [run_search] *)

Lemma load_session_run (u : string) (w : world) :
  load_session u w =
  (if blocked u w
   then Raise (FileExistsError (OsPath.join SESSIONS_DIR u))
   else contributions (list_session_files u w),
   with_user_dir u w).
Proof.
  unfold load_session. rewrite bind_run, get_user_dir_run.
  destruct (blocked u w) eqn:Hb; [reflexivity|].
  rewrite bind_run. unfold walk_user_dir, lift.
  rewrite load_walk_contributions.
  fold (list_session_files u (with_user_dir u w)).
  by rewrite list_session_files_with_user_dir.
Qed.

Lemma reset_and_load_run (docs : list Document) (w : world) :
  reset_and_load docs w = (Ok tt, mkWorld (fs w) docs).
Proof. reflexivity. Qed.

Lemma search_answers_run (u q : string) (w : world) :
  search_answers u q w =
  match load_session u w with
  | (Ok docs, w1) => (pipeline_run docs q 10 5, mkWorld (fs w1) docs)
  | (Raise e, w1) => (Raise e, w1)
  end.
Proof.
  unfold search_answers. rewrite bind_run.
  destruct (load_session u w) as [[docs|e] w1]; reflexivity.
Qed.

Lemma run_search_run (u q : string) (w : world) :
  run_search u q w =
  match search_answers u q w with
  | (Ok answers, w') => (Ok (render_results answers), w')
  | (Raise e, w') => (Raise e, w')
  end.
Proof. reflexivity. Qed.

Lemma run_search_halves (u q : string) (w : world) :
  run_search u q w = (index_session u;; answer_query q) w.
Proof.
  unfold run_search, search_answers, index_session, answer_query.
  rewrite !bind_run.
  destruct (load_session u w) as [[docs|e] w1]; [|reflexivity].
  rewrite !bind_run, reset_and_load_run.
  unfold run_pipeline. rewrite !bind_run. simpl.
  destruct (pipeline_run docs q 10 5); reflexivity.
Qed.

(** Whatever happens, a search leaves the file system as it was, but
    for the directory of the user, which now exists. *)
Lemma run_search_fs (u q : string) (w : world) :
  fs (snd (run_search u q w)) = fs (with_user_dir u w).
Proof.
  rewrite run_search_run, search_answers_run, load_session_run.
  destruct (blocked u w); [reflexivity|].
  destruct (contributions _) as [docs|e]; [|reflexivity].
  simpl. destruct (pipeline_run docs q 10 5); reflexivity.
Qed.

End Facts.

(** ** The rendering loop *)

Section Rendering.

Context `{H : Haystack}.

Lemma render_loop_acc (answers : list Answer) (acc : list string) :
  render_loop answers acc = acc ++ List.map render_answer answers.
Proof.
  revert acc. induction answers as [|a rest IH]; intros acc; simpl.
  - by rewrite app_nil_r.
  - rewrite IH, <- app_assoc. reflexivity.
Qed.

Lemma render_loop_map (answers : list Answer) :
  render_loop answers [] = List.map render_answer answers.
Proof. apply render_loop_acc. Qed.

Lemma render_results_nil : render_results [] = "Aucun passage trouvé.".
Proof. reflexivity. Qed.

Lemma render_results_cons (a : Answer) (rest : list Answer) :
  render_results (a :: rest) =
  Py.join divider (List.map render_answer (a :: rest)).
Proof.
  unfold render_results. rewrite render_loop_map. reflexivity.
Qed.

End Rendering.

(** ** Search *)

Section Search.

Context `{H : Haystack}.

Lemma list_session_files_fs (s : string) (w w' : world) :
  fs w !! s = fs w' !! s ->
  list_session_files s w = list_session_files s w'.
Proof.
  intros E. unfold list_session_files, session_walk. by rewrite E.
Qed.

(** C10: a search leaves the stored files of every session as they
    were: for every user id [u] that is a usable name and every user
    [s], the files listed under the directory of [s], with their
    contents, are the same after [run_search u q] as before, whether
    the search returns or raises.  The directory of
    every other user is untouched, and the directory of [u] is
    untouched or, when it did not exist, is now there and empty. *)
Theorem run_search_keeps_files (u q s : string) (w : world) :
  is_component u = true ->
  list_session_files s (snd (run_search u q w)) = list_session_files s w /\
  (s ≠ u -> fs (snd (run_search u q w)) !! s = fs w !! s) /\
  (fs (snd (run_search u q w)) !! u = fs w !! u \/
   fs w !! u = None /\ fs (snd (run_search u q w)) !! u = Some (Dir [])).
Proof.
  intros _. split; [|split].
  - rewrite <- (list_session_files_with_user_dir u s w).
    apply list_session_files_fs.
    by rewrite run_search_fs.
  - intros Hne. rewrite run_search_fs.
    by apply with_user_dir_lookup_ne.
  - rewrite run_search_fs, with_user_dir_lookup.
    destruct (fs w !! u); [by left|by right].
Qed.

Lemma render_results_not_empty (answers : list Answer) :
  render_results answers ≠ "".
Proof.
  destruct answers as [|a rest]; [discriminate|].
  rewrite render_results_cons. simpl List.map.
  destruct (List.map render_answer rest); discriminate.
Qed.

(** C4, as amended: for a user id that is a usable name, on a session
    without stored files, [run_search] empties the document store
    and calls the pipeline on the empty index at line 74, under no
    guard and no handler: what the search gives is what that call
    gives.  It returns "Aucun passage trouvé." exactly when the
    pipeline returns no answer on the empty index; it raises [e]
    exactly when the pipeline raises [e] there; and it never returns
    the empty string. *)
Theorem search_without_files (u q : string) (w : world) :
  is_component u = true ->
  blocked u w = false ->
  list_session_files u w = [] ->
  run_search u q w =
  (render_results <$> pipeline_run [] q 10 5,
   mkWorld (fs (with_user_dir u w)) []) /\
  (fst (run_search u q w) = Ok "Aucun passage trouvé."
   <-> pipeline_run [] q 10 5 = Ok []) /\
  (forall e,
      fst (run_search u q w) = Raise e <-> pipeline_run [] q 10 5 = Raise e) /\
  fst (run_search u q w) ≠ Ok "".
Proof.
  intros _ Hb Hlist.
  assert (Hrun : run_search u q w =
                 (render_results <$> pipeline_run [] q 10 5,
                  mkWorld (fs (with_user_dir u w)) [])).
  { rewrite run_search_run, search_answers_run, load_session_run, Hb, Hlist.
    simpl. destruct (pipeline_run [] q 10 5); reflexivity. }
  split; [exact Hrun|]. rewrite Hrun. simpl fst.
  destruct (pipeline_run [] q 10 5) as [answers|e0]; simpl.
  - split; [|split].
    + split.
      * intros [= E]. destruct answers as [|a rest]; [reflexivity|].
        exfalso. revert E. rewrite render_results_cons. simpl List.map.
        destruct (List.map render_answer rest); discriminate.
      * by intros [= ->].
    + intros e. split; discriminate.
    + intros [= E]. by apply render_results_not_empty in E.
  - split; [|split].
    + split; discriminate.
    + intros e. split; by intros [= ->].
    + discriminate.
Qed.

(** C2: for a user id that is a usable name, when the load step
    gives the passages [docs], the index holds exactly [docs] when the
    pipeline is called, whatever it held before: [docs] are the
    passages of the files listed for the session, the first half of
    the search leaves [docs] in the store from any earlier content of
    the store, and the search is the pipeline run on that index. *)
Theorem index_holds_loaded_passages (u q : string) (w w1 : world)
  (docs : list Document) :
  is_component u = true ->
  load_session u w = (Ok docs, w1) ->
  contributions (list_session_files u w) = Ok docs /\
  exists w2,
    index_session u w = (Ok tt, w2) /\
    document_store w2 = docs /\
    fs w2 = fs w1 /\
    (forall st, index_session u (mkWorld (fs w) st) = (Ok tt, w2)) /\
    search_answers u q w = run_pipeline q 10 5 w2.
Proof.
  intros _ Hload.
  rewrite load_session_run in Hload.
  destruct (blocked u w) eqn:Hb; [discriminate|].
  inversion Hload as [[Hdocs Hw1]]. split; [reflexivity|].
  exists (mkWorld (fs (with_user_dir u w)) docs).
  assert (Hany : forall st,
             index_session u (mkWorld (fs w) st)
             = (Ok tt, mkWorld (fs (with_user_dir u w)) docs)).
  { intros st. unfold index_session.
    rewrite bind_run, load_session_run.
    change (blocked u (mkWorld (fs w) st)) with (blocked u w).
    change (list_session_files u (mkWorld (fs w) st))
      with (list_session_files u w).
    rewrite Hb, Hdocs, reset_and_load_run. do 2 f_equal.
    unfold with_user_dir. simpl. destruct (fs w !! u); reflexivity. }
  split; [|split; [reflexivity|split; [reflexivity|split; [exact Hany|]]]].
  - specialize (Hany (document_store w)). by destruct w.
  - rewrite search_answers_run, load_session_run, Hb, Hdocs. reflexivity.
Qed.

(** C7: for a user id that is a usable name, the pipeline is called
    with [top_k] 10 for the retriever and 5 for the reader: what a
    search returns is the rendering of the
    answers the pipeline gives with these two parameters on the
    loaded passages, it does not depend on what the pipeline does
    with other parameters, and with a reader that respects its
    [top_k] at most 5 answers are rendered. *)
Theorem search_top_k (u q : string) (w : world) (out : string) :
  is_component u = true ->
  reader_top_k_bound H ->
  fst (run_search u q w) = Ok out ->
  (exists docs answers,
      fst (load_session u w) = Ok docs /\
      pipeline_run docs q 10 5 = Ok answers /\
      out = render_results answers /\
      length (render_loop answers []) = length answers /\
      length answers <= 5) /\
  (forall p,
      (forall st, p st q 10 5 = pipeline_run st q 10 5) ->
      fst (run_search (H := with_pipeline H p) u q w) = Ok out).
Proof.
  intros _ Hbound Hout.
  rewrite run_search_run, search_answers_run in Hout.
  destruct (load_session u w) as [[docs|e] w1] eqn:Hload; [|discriminate].
  destruct (pipeline_run docs q 10 5) as [answers|e] eqn:Hrun; [|discriminate].
  simpl in Hout. inversion Hout; subst out. split.
  - exists docs, answers.
    split; [reflexivity|]. split; [exact Hrun|]. split; [reflexivity|].
    split.
    + rewrite render_loop_map. apply length_map.
    + by apply (Hbound docs q 10 5).
  - intros p Hp.
    rewrite run_search_run, search_answers_run.
    change (load_session (H := with_pipeline H p) u w) with (load_session u w).
    rewrite Hload.
    change (@pipeline_run (with_pipeline H p)) with p.
    rewrite Hp, Hrun. reflexivity.
Qed.

End Search.

(** ** Directories *)

Section Entries.

Lemma entry_lookup_store (nm nm' : string) (n : node) (es : list (string * node)) :
  entry_lookup nm' (entry_store nm n es) =
  if String.eqb nm nm' then Some n else entry_lookup nm' es.
Proof.
  induction es as [|[k n0] rest IH]; simpl.
  - reflexivity.
  - destruct (String.eqb_spec k nm) as [->|Hk]; simpl.
    + destruct (String.eqb_spec nm nm'); reflexivity.
    + destruct (String.eqb_spec k nm') as [->|Hk'].
      * destruct (String.eqb_spec nm nm'); [congruence|reflexivity].
      * exact IH.
Qed.

Lemma existsb_eqb_false_store (x nm : string) (n : node) (es : list (string * node)) :
  x ≠ nm ->
  existsb (String.eqb x) (List.map fst (entry_store nm n es)) =
  existsb (String.eqb x) (List.map fst es).
Proof.
  intros Hx. induction es as [|[k n0] rest IH]; simpl.
  - destruct (String.eqb_spec x nm); [congruence|reflexivity].
  - destruct (String.eqb_spec k nm) as [->|Hk]; simpl; [reflexivity|].
    by rewrite IH.
Qed.

Lemma distinct_store (nm : string) (n : node) (es : list (string * node)) :
  distinct (List.map fst es) = true ->
  distinct (List.map fst (entry_store nm n es)) = true.
Proof.
  induction es as [|[k n0] rest IH]; simpl; [reflexivity|].
  intros [Hk Hrest]%andb_prop.
  destruct (String.eqb_spec k nm) as [->|Hne]; simpl.
  - by rewrite Hk, Hrest.
  - rewrite existsb_eqb_false_store by exact Hne.
    by rewrite Hk, IH.
Qed.

Lemma flat_store (nm : string) (d : list byte) (es : list (string * node)) :
  flat es = true -> flat (entry_store nm (File d) es) = true.
Proof.
  unfold flat. induction es as [|[k n0] rest IH]; simpl; [reflexivity|].
  intros [Hk Hrest]%andb_prop.
  destruct (String.eqb k nm); simpl.
  - exact Hrest.
  - by rewrite Hk, IH.
Qed.

Lemma length_store (nm : string) (n : node) (es : list (string * node)) :
  length (entry_store nm n es) =
  match entry_lookup nm es with
  | Some _ => length es
  | None => S (length es)
  end.
Proof.
  induction es as [|[k n0] rest IH]; simpl; [reflexivity|].
  destruct (String.eqb k nm); simpl; [reflexivity|].
  rewrite IH. destruct (entry_lookup nm rest); reflexivity.
Qed.

(** The files of a flat directory, one per entry. *)
Lemma length_regular_files_flat (es : list (string * node)) :
  flat es = true -> length (regular_files es) = length es.
Proof.
  unfold flat. induction es as [|[k [d|sub]] rest IH]; simpl;
    [reflexivity| |discriminate].
  intros Hrest. by rewrite IH.
Qed.

Lemma regular_files_absent (nm : string) (es : list (string * node)) :
  existsb (String.eqb nm) (List.map fst es) = false ->
  List.filter (fun f => String.eqb (fst f) nm) (regular_files es) = [].
Proof.
  induction es as [|[k [d|sub]] rest IH]; simpl; [reflexivity| |].
  - intros [Hk Hrest]%orb_false_elim.
    rewrite String.eqb_sym, Hk. by apply IH.
  - intros [Hk Hrest]%orb_false_elim. by apply IH.
Qed.

(** After a write, a directory without duplicate names lists the
    written name once, with the written bytes. *)
Lemma regular_files_store (nm : string) (d : list byte) (es : list (string * node)) :
  distinct (List.map fst es) = true ->
  List.filter (fun f => String.eqb (fst f) nm)
    (regular_files (entry_store nm (File d) es)) = [(nm, d)].
Proof.
  induction es as [|[k n0] rest IH]; simpl.
  - by rewrite String.eqb_refl.
  - intros [Hk Hrest]%andb_prop.
    destruct (String.eqb_spec k nm) as [->|Hne]; simpl.
    + rewrite String.eqb_refl.
      rewrite regular_files_absent; [reflexivity|].
      by apply negb_true_iff.
    + destruct n0 as [d0|sub]; simpl.
      * destruct (String.eqb_spec k nm); [congruence|]. by apply IH.
      * by apply IH.
Qed.

Lemma os_walk_flat (top : string) (es : list (string * node)) :
  flat es = true ->
  os_walk top (Dir es) = [mkWalkItem top (dirnames es) (regular_files es)].
Proof.
  intros Hflat. simpl. f_equal.
  unfold flat in Hflat.
  induction es as [|[k [d|sub]] rest IH]; simpl in *;
    [reflexivity| |discriminate].
  by apply IH.
Qed.

End Entries.

(** ** The session store *)

Section Store.

Context `{H : Haystack}.

Lemma is_component_parts (nm : string) :
  is_component nm = true ->
  OsPath.contains NUL nm = false /\
  String.eqb nm "" || String.eqb nm "." || String.eqb nm ".." = false /\
  OsPath.contains OsPath.sep nm = false.
Proof.
  unfold is_component.
  intros [[[[H1 H2]%andb_prop H3]%andb_prop H4]%andb_prop H5]%andb_prop.
  apply negb_true_iff in H1, H2, H3, H4, H5.
  by rewrite H1, H2, H3, H4, H5.
Qed.

Lemma session_entries_lookup (u : string) (w : world) :
  blocked u w = false ->
  fs (with_user_dir u w) !! u = Some (Dir (session_entries u w)).
Proof.
  unfold blocked, session_entries. rewrite with_user_dir_lookup.
  destruct (fs w !! u) as [[d|es]|]; [discriminate|reflexivity|reflexivity].
Qed.

Lemma session_entries_with_user_dir (u : string) (w : world) :
  session_entries u (with_user_dir u w) = session_entries u w.
Proof.
  unfold session_entries. rewrite with_user_dir_lookup.
  destruct (fs w !! u) as [[d|es]|]; reflexivity.
Qed.

Lemma store_file_lookup (u nm : string) (d : list byte) (w : world) :
  fs (store_file u nm d w) !! u =
  Some (Dir (entry_store nm (File d) (session_entries u w))).
Proof. unfold store_file. simpl. by rewrite lookup_insert_eq. Qed.

Lemma store_file_lookup_ne (u s nm : string) (d : list byte) (w : world) :
  u ≠ s -> fs (store_file u nm d w) !! s = fs w !! s.
Proof. intros Hne. unfold store_file. simpl. by rewrite lookup_insert_ne. Qed.

Lemma store_file_entries (u nm : string) (d : list byte) (w : world) :
  session_entries u (store_file u nm d w) =
  entry_store nm (File d) (session_entries u w).
Proof.
  unfold session_entries at 1. by rewrite store_file_lookup.
Qed.

Lemma is_subdir_store_file (u nm nm' : string) (d : list byte) (w : world) :
  is_subdir u nm' w = false ->
  is_subdir u nm' (store_file u nm d w) = false.
Proof.
  unfold is_subdir. rewrite store_file_entries, entry_lookup_store.
  by destruct (String.eqb nm nm').
Qed.

(** A write into an existing user directory, under a usable name that
    no subdirectory has, succeeds. *)
Lemma open_wb_write_run (u nm : string) (d : list byte) (w : world) :
  is_component nm = true ->
  fs w !! u = Some (Dir (session_entries u w)) ->
  is_subdir u nm w = false ->
  open_wb_write u nm d w = (Ok tt, store_file u nm d w).
Proof.
  intros (Hnul & Hdots & _)%is_component_parts Hdir Hsub.
  unfold open_wb_write. rewrite Hnul, Hdots, Hdir.
  unfold is_subdir in Hsub.
  destruct (entry_lookup nm (session_entries u w)) as [[d0|sub]|];
    [reflexivity|discriminate|reflexivity].
Qed.

Lemma for_each_upload (u : string) (files : list UploadedFile) (w : world) :
  fs w !! u = Some (Dir (session_entries u w)) ->
  Forall (writable u w) files ->
  for_each files (fun file =>
    open_wb_write u (OsPath.basename (name file)) (read file)) w =
  (Ok tt, fold_left (store_upload u) files w).
Proof.
  revert w. induction files as [|f rest IH]; intros w Hdir Hall; simpl.
  - reflexivity.
  - inversion Hall as [|? ? [Hcomp Hsub] Hrest]; subst.
    rewrite bind_run, open_wb_write_run by assumption.
    apply IH.
    + unfold store_upload. by rewrite store_file_lookup, store_file_entries.
    + eapply Forall_impl; [exact Hrest|].
      intros f' [Hc' Hs']. split; [exact Hc'|].
      by apply is_subdir_store_file.
Qed.

Lemma add_files_run (u : string) (files : list UploadedFile) (w : world) :
  blocked u w = false ->
  Forall (writable u w) files ->
  add_files u files w =
  (Ok (Py.str_of_nat (length files) +:+ " fichier(s) ajouté(s)."),
   fold_left (store_upload u) files (with_user_dir u w)).
Proof.
  intros Hb Hall. unfold add_files.
  rewrite bind_run, get_user_dir_run, Hb.
  rewrite bind_run, for_each_upload; [reflexivity| |].
  - rewrite session_entries_with_user_dir. by apply session_entries_lookup.
  - eapply Forall_impl; [exact Hall|].
    intros f [Hc Hs]. split; [exact Hc|].
    unfold is_subdir in *. by rewrite session_entries_with_user_dir.
Qed.

(** Once stored, an upload stays listed under its base name while
    further uploads are stored. *)
Lemma fold_store_keeps (u nm : string) (files : list UploadedFile) (w : world) :
  (exists d, entry_lookup nm (session_entries u w) = Some (File d)) ->
  exists d,
    entry_lookup nm (session_entries u (fold_left (store_upload u) files w))
    = Some (File d).
Proof.
  revert w. induction files as [|f rest IH]; intros w [d Hd]; simpl.
  - by exists d.
  - apply IH. unfold store_upload.
    rewrite store_file_entries, entry_lookup_store.
    destruct (String.eqb _ nm); eauto.
Qed.

Lemma fold_store_all (u : string) (files : list UploadedFile) (w : world) :
  forall f, In f files ->
  exists d,
    entry_lookup (OsPath.basename (name f))
      (session_entries u (fold_left (store_upload u) files w))
    = Some (File d).
Proof.
  revert w. induction files as [|f0 rest IH]; intros w f Hin; simpl.
  - destruct Hin.
  - destruct Hin as [->|Hin]; [|by apply IH].
    apply fold_store_keeps. exists (read f). unfold store_upload.
    by rewrite store_file_entries, entry_lookup_store, String.eqb_refl.
Qed.

(** C9: for a user id that is a usable name, [add_files] returns the
    message made of the number of uploads and " fichier(s) ajouté(s).": it writes every upload, in
    turn, under its base name into the directory of the user, and
    every upload is then a file of that directory.  The call
    succeeds when no regular file stands in the place of the
    directory, every base name is a usable file name, and none is
    the name of a subdirectory. *)
Theorem add_files_reports_count (u : string) (files : list UploadedFile)
  (w : world) :
  is_component u = true ->
  blocked u w = false ->
  Forall (writable u w) files ->
  exists w',
    add_files u files w =
      (Ok (Py.str_of_nat (length files) +:+ " fichier(s) ajouté(s)."), w') /\
    w' = fold_left (store_upload u) files (with_user_dir u w) /\
    forall f, In f files ->
      exists d,
        entry_lookup (OsPath.basename (name f)) (session_entries u w')
        = Some (File d).
Proof.
  intros _ Hb Hall. eexists. split; [by apply add_files_run|].
  split; [reflexivity|]. apply fold_store_all.
Qed.

(** C3: for a user id that is a usable name, when no regular file
    stands in the place of the directory of the user, [delete_files]
    succeeds, and right after it the
    directory exists, has no entry, and the listing of the files of
    the user is empty. *)
Theorem delete_files_then_list (u : string) (w : world) :
  is_component u = true ->
  blocked u w = false ->
  exists w',
    delete_files u w = (Ok "Tous les fichiers ont été supprimés.", w') /\
    fs w' !! u = Some (Dir []) /\
    list_session_files u w' = [].
Proof.
  intros _ Hb.
  exists (set_fs (insert u (Dir [])) (set_fs (delete u) (with_user_dir u w))).
  split; [|split].
  - unfold delete_files.
    rewrite bind_run, get_user_dir_run, Hb.
    rewrite bind_run. unfold rmtree.
    rewrite (session_entries_lookup u w Hb).
    rewrite bind_run. unfold makedirs. simpl.
    by rewrite lookup_delete_eq.
  - simpl. by rewrite lookup_insert_eq.
  - unfold list_session_files, session_walk. simpl.
    by rewrite lookup_insert_eq.
Qed.

End Store.

(** ** Writing the same name twice *)

Section Overwrite.

Context `{H : Haystack}.

Lemma filter_map_commute {A B : Type} (p : B -> bool) (g : A -> B) (l : list A) :
  List.filter p (List.map g l) = List.map g (List.filter (fun x => p (g x)) l).
Proof.
  induction l as [|x rest IH]; simpl; [reflexivity|].
  destruct (p (g x)); simpl; by rewrite IH.
Qed.

Lemma list_session_files_flat (u : string) (w : world) (es : list (string * node)) :
  fs w !! u = Some (Dir es) ->
  flat es = true ->
  list_session_files u w =
  List.map (fun f => (OsPath.join SESSIONS_DIR u, fst f, snd f)) (regular_files es).
Proof.
  intros Hdir Hflat. unfold list_session_files, session_walk.
  rewrite Hdir, os_walk_flat by exact Hflat.
  simpl. by rewrite app_nil_r.
Qed.

Lemma flat_not_subdir (u nm : string) (w : world) :
  flat (session_entries u w) = true -> is_subdir u nm w = false.
Proof.
  unfold is_subdir, flat.
  induction (session_entries u w) as [|[k n] rest IH]; simpl; [reflexivity|].
  intros [Hk Hrest]%andb_prop.
  destruct (String.eqb k nm); [|by apply IH].
  destruct n; [reflexivity|discriminate].
Qed.

Lemma store_file_blocked (u nm : string) (d : list byte) (w : world) :
  blocked u (store_file u nm d w) = false.
Proof. unfold blocked. by rewrite store_file_lookup. Qed.

Lemma with_user_dir_id (u : string) (w : world) :
  is_Some (fs w !! u) -> with_user_dir u w = w.
Proof. intros [n Hn]. unfold with_user_dir. by rewrite Hn. Qed.

(** C6: for a user id that is a usable name, on a user directory
    that holds regular files with distinct names, two calls of [add_files] with one upload each, of the same
    base name, both succeed; the second overwrites: the listing
    shows one file of that name, holding the bytes of the second
    upload, and is as long as after the first call. *)
Theorem add_files_overwrites (u : string) (f1 f2 : UploadedFile) (w : world) :
  is_component u = true ->
  blocked u w = false ->
  flat (session_entries u w) = true ->
  distinct (List.map fst (session_entries u w)) = true ->
  is_component (OsPath.basename (name f1)) = true ->
  OsPath.basename (name f2) = OsPath.basename (name f1) ->
  exists w1 w2,
    add_files u [f1] w = (Ok "1 fichier(s) ajouté(s).", w1) /\
    add_files u [f2] w1 = (Ok "1 fichier(s) ajouté(s).", w2) /\
    List.filter
      (fun e => String.eqb (snd (fst e)) (OsPath.basename (name f1)))
      (list_session_files u w2)
    = [(OsPath.join SESSIONS_DIR u, OsPath.basename (name f1), read f2)] /\
    length (list_session_files u w2) = length (list_session_files u w1).
Proof.
  intros _ Hb Hflat Hdist Hcomp Hsame.
  set (b := OsPath.basename (name f1)) in *.
  set (es := session_entries u w) in *.
  set (w1 := store_file u b (read f1) (with_user_dir u w)).
  set (w2 := store_file u b (read f2) w1).
  assert (He1 : session_entries u w1 = entry_store b (File (read f1)) es).
  { unfold w1. by rewrite store_file_entries, session_entries_with_user_dir. }
  assert (He2 : session_entries u w2
                = entry_store b (File (read f2)) (session_entries u w1)).
  { unfold w2. by rewrite store_file_entries. }
  assert (Hflat1 : flat (session_entries u w1) = true).
  { rewrite He1. by apply flat_store. }
  assert (Hdist1 : distinct (List.map fst (session_entries u w1)) = true).
  { rewrite He1. by apply distinct_store. }
  exists w1, w2. split; [|split; [|split]].
  - rewrite add_files_run; [reflexivity|exact Hb|].
    constructor; [|constructor]. split; [exact Hcomp|].
    by apply flat_not_subdir.
  - rewrite add_files_run.
    + simpl. unfold store_upload. rewrite Hsame. fold b.
      rewrite with_user_dir_id; [reflexivity|].
      unfold w1. rewrite store_file_lookup. by eexists.
    + apply store_file_blocked.
    + constructor; [|constructor]. split; [by rewrite Hsame|].
      by apply flat_not_subdir.
  - rewrite (list_session_files_flat u w2 (session_entries u w2)).
    + rewrite filter_map_commute. simpl.
      rewrite He2, regular_files_store by exact Hdist1. reflexivity.
    + unfold w2. by rewrite store_file_lookup, <- store_file_entries.
    + rewrite He2. by apply flat_store.
  - rewrite (list_session_files_flat u w2 (session_entries u w2)).
    + rewrite (list_session_files_flat u w1 (session_entries u w1)).
      * rewrite !length_map, !length_regular_files_flat.
        -- rewrite He2, length_store, He1, entry_lookup_store.
           by rewrite String.eqb_refl.
        -- exact Hflat1.
        -- rewrite He2. by apply flat_store.
      * unfold w1. by rewrite store_file_lookup, <- store_file_entries.
      * exact Hflat1.
    + unfold w2. by rewrite store_file_lookup, <- store_file_entries.
    + rewrite He2. by apply flat_store.
Qed.

End Overwrite.

(** ** File formats *)

Section Formats.

Context `{H : Haystack}.

Lemma converters_lookup (ext : string) :
  converters !! ext =
  if String.eqb ext ".pdf" then Some PDFToTextConverter
  else if String.eqb ext ".txt" then Some TextConverter
  else if String.eqb ext ".docx" then Some DocxToTextConverter
  else None.
Proof.
  unfold converters.
  destruct (String.eqb_spec ext ".pdf") as [->|Hpdf].
  { by rewrite lookup_insert_eq. }
  rewrite lookup_insert_ne by congruence.
  destruct (String.eqb_spec ext ".txt") as [->|Htxt].
  { by rewrite lookup_insert_eq. }
  rewrite lookup_insert_ne by congruence.
  destruct (String.eqb_spec ext ".docx") as [->|Hdocx].
  { by rewrite lookup_insert_eq. }
  rewrite lookup_insert_ne by congruence.
  apply lookup_empty.
Qed.

Lemma accepted_lower (file : string) :
  accepted file =
  let ext := Py.lower (snd (OsPath.splitext file)) in
  String.eqb ext ".pdf" || String.eqb ext ".txt" || String.eqb ext ".docx".
Proof.
  unfold accepted, accepted_formats, same_ignoring_case. simpl.
  rewrite orb_false_r, orb_assoc. reflexivity.
Qed.

Lemma load_file_skipped (r file : string) (data : list byte) :
  accepted file = false -> load_file r file data = Ok [].
Proof.
  rewrite accepted_lower. simpl.
  intros [[Hpdf Htxt]%orb_false_elim Hdocx]%orb_false_elim.
  unfold load_file. rewrite converters_lookup, Hpdf, Htxt, Hdocx.
  reflexivity.
Qed.

Lemma load_file_converted (r file : string) (data : list byte) :
  accepted file = true ->
  exists conv,
    In conv [PDFToTextConverter; TextConverter; DocxToTextConverter] /\
    load_file r file data =
    (doc ← conv (OsPath.join r file) data
             (<["name" := file]> (<["path" := OsPath.join r file]> ∅));
     process [doc]).
Proof.
  rewrite accepted_lower. simpl. intros Hacc.
  unfold load_file. rewrite converters_lookup.
  destruct (String.eqb _ ".pdf").
  { exists PDFToTextConverter. split; [simpl; auto|reflexivity]. }
  destruct (String.eqb _ ".txt").
  { exists TextConverter. split; [simpl; auto|reflexivity]. }
  destruct (String.eqb _ ".docx"); [|discriminate].
  exists DocxToTextConverter. split; [simpl; auto|reflexivity].
Qed.

Lemma contributions_accepted (fl : list (string * string * list byte)) :
  contributions fl =
  contributions (List.filter (fun e => accepted (snd (fst e))) fl).
Proof.
  induction fl as [|[[r file] data] rest IH]; simpl; [reflexivity|].
  destruct (accepted file) eqn:Hacc; simpl.
  - by rewrite IH.
  - rewrite load_file_skipped by exact Hacc. simpl.
    rewrite <- IH. destruct (contributions rest); reflexivity.
Qed.





End Formats.

(** ** Strings *)

Section Strings.

Lemma str_app_nil_l (s : string) : "" +:+ s = s.
Proof. reflexivity. Qed.

Lemma str_app_cons (c : ascii) (a b : string) :
  String c a +:+ b = String c (a +:+ b).
Proof. reflexivity. Qed.

Lemma str_app_nil_r (s : string) : s +:+ "" = s.
Proof.
  induction s as [|c s IH]; [reflexivity|].
  by rewrite str_app_cons, IH.
Qed.

Lemma str_app_assoc (a b c : string) : (a +:+ b) +:+ c = a +:+ (b +:+ c).
Proof.
  induction a as [|x a IH]; [reflexivity|].
  by rewrite !str_app_cons, IH.
Qed.


Lemma str_prefix_app (a r : string) : String.prefix a (a +:+ r) = true.
Proof.
  induction a as [|x a IH]; [by destruct r|].
  rewrite str_app_cons. simpl.
  destruct (ascii_dec x x); [exact IH|congruence].
Qed.

Lemma str_prefix_split (a b : string) :
  String.prefix a b = true -> b = a +:+ Py.drop (String.length a) b.
Proof.
  revert b. induction a as [|x a IH]; intros b Hp; [reflexivity|].
  destruct b as [|y b]; [discriminate|].
  simpl in Hp. destruct (ascii_dec x y) as [->|]; [|discriminate].
  rewrite str_app_cons. simpl. f_equal. by apply IH.
Qed.

Lemma str_prefix_iff (a b : string) :
  String.prefix a b = true <-> exists r, b = a +:+ r.
Proof.
  split.
  - intros Hp. eexists. by apply str_prefix_split.
  - intros [r ->]. apply str_prefix_app.
Qed.



(** *** Reversal *)






(** *** Runs of patterns *)




(** *** Stripping *)






(** *** Replacing *)




End Strings.

(** ** Rendered results *)

Section Blocks.

Context `{H : Haystack}.




End Blocks.

(** ** Paths *)

Section Paths.

Context `{H : Haystack}.

Lemma endswith_app (c : ascii) (a b : string) :
  b ≠ "" -> OsPath.endswith c (a +:+ b) = OsPath.endswith c b.
Proof.
  intros Hb. induction a as [|x a IH]; [reflexivity|].
  rewrite str_app_cons. simpl.
  destruct (a +:+ b) eqn:E; [|exact IH].
  destruct a; [|discriminate]. by rewrite str_app_nil_l in E.
Qed.

Lemma endswith_contains (c : ascii) (s : string) :
  OsPath.contains c s = false -> OsPath.endswith c s = false.
Proof.
  induction s as [|x s IH]; simpl; [reflexivity|].
  intros [Hx Hs]%orb_false_elim.
  destruct s; [exact Hx|by apply IH].
Qed.

Lemma component_facts (nm : string) :
  is_component nm = true ->
  nm ≠ "" /\ OsPath.contains OsPath.sep nm = false /\
  OsPath.startswith OsPath.sep nm = false.
Proof.
  intros Hc. destruct (is_component_parts nm Hc) as (_ & Hdots & Hsep).
  split; [|split; [exact Hsep|]].
  - intros ->. discriminate.
  - destruct nm as [|c nm]; [reflexivity|].
    simpl in *. by apply orb_false_elim in Hsep as [? _].
Qed.

Lemma join_component (a nm : string) :
  clean a -> is_component nm = true ->
  OsPath.join a nm = a +:+ String OsPath.sep nm /\ clean (OsPath.join a nm).
Proof.
  intros [Ha Hend] (Hnm & Hsep & Hstart)%component_facts.
  assert (E : OsPath.join a nm = a +:+ String OsPath.sep nm).
  { unfold OsPath.join. rewrite Hstart, Hend.
    destruct a; [congruence|reflexivity]. }
  split; [exact E|]. rewrite E. split.
  - destruct a; discriminate.
  - rewrite endswith_app by discriminate.
    simpl. destruct nm; [congruence|]. by apply endswith_contains.
Qed.

Lemma SESSIONS_DIR_clean : clean SESSIONS_DIR.
Proof.
  unfold SESSIONS_DIR, OsPath.join. simpl OsPath.startswith. cbv iota.
  destruct (_ || _); split.
  - destruct gettempdir; discriminate.
  - by rewrite endswith_app.
  - destruct gettempdir; discriminate.
  - by rewrite endswith_app.
Qed.

Lemma user_dir_clean (u : string) :
  is_component u = true ->
  OsPath.join SESSIONS_DIR u = SESSIONS_DIR +:+ String OsPath.sep u /\
  clean (OsPath.join SESSIONS_DIR u).
Proof. apply join_component, SESSIONS_DIR_clean. Qed.

Lemma under_app (d rest : string) :
  under d (d +:+ String OsPath.sep rest) = true.
Proof.
  unfold under. apply str_prefix_iff. exists rest.
  by rewrite str_app_assoc.
Qed.

Lemma under_trans (d rest p : string) :
  under (d +:+ String OsPath.sep rest) p = true -> under d p = true.
Proof.
  unfold under. intros [x ->]%str_prefix_iff.
  apply str_prefix_iff. exists (rest +:+ "/" +:+ x).
  by rewrite !str_app_assoc.
Qed.

(** Two names without a separator that start the same path are the
    same name. *)
Lemma component_split (a b x y : string) :
  OsPath.contains OsPath.sep a = false ->
  OsPath.contains OsPath.sep b = false ->
  a +:+ String OsPath.sep x = b +:+ String OsPath.sep y ->
  a = b.
Proof.
  revert b. induction a as [|c a IH]; intros b Ha Hb E.
  - destruct b as [|c' b]; [reflexivity|].
    rewrite str_app_nil_l, str_app_cons in E. inversion E; subst c'.
    simpl in Hb. discriminate.
  - destruct b as [|c' b].
    + rewrite str_app_nil_l, str_app_cons in E. inversion E; subst c.
      simpl in Ha. discriminate.
    + rewrite !str_app_cons in E. inversion E; subst c'.
      simpl in Ha, Hb.
      apply orb_false_elim in Ha as [_ Ha].
      apply orb_false_elim in Hb as [_ Hb].
      f_equal. by apply (IH b).
Qed.

(** The directories of two users do not overlap. *)
Lemma user_dirs_apart (s1 s2 p : string) :
  is_component s1 = true -> is_component s2 = true ->
  s1 ≠ s2 ->
  under (OsPath.join SESSIONS_DIR s2) p = true ->
  under (OsPath.join SESSIONS_DIR s1) p = false.
Proof.
  intros H1 H2 Hne Hp2.
  destruct (under (OsPath.join SESSIONS_DIR s1) p) eqn:Hp1; [|reflexivity].
  exfalso. apply Hne.
  destruct (user_dir_clean s1 H1) as [E1 _].
  destruct (user_dir_clean s2 H2) as [E2 _].
  rewrite E1 in Hp1. rewrite E2 in Hp2. unfold under in *.
  apply str_prefix_iff in Hp1 as [x Hx].
  apply str_prefix_iff in Hp2 as [y Hy].
  rewrite Hx in Hy. rewrite !str_app_assoc in Hy.
  apply (inj (String.app SESSIONS_DIR)) in Hy.
  rewrite !str_app_cons in Hy. inversion Hy as [Hy'].
  apply component_facts in H1 as (_ & Hs1 & _).
  apply component_facts in H2 as (_ & Hs2 & _).
  by apply (component_split s1 s2 x y).
Qed.

End Paths.

(** ** Walking a directory tree *)

Section Walk.

Context `{H : Haystack}.

Lemma os_walk_dir (top : string) (es : list (string * node)) :
  os_walk top (Dir es) =
  mkWalkItem top (dirnames es) (regular_files es) ::
  flat_map (fun e => os_walk (OsPath.join top (fst e)) (snd e)) es.
Proof.
  simpl. f_equal.
  induction es as [|[nm child] rest IH]; simpl; [reflexivity|].
  by rewrite IH.
Qed.

Lemma wf_node_dir (es : list (string * node)) :
  wf_node (Dir es) = true ->
  Forall (fun e => is_component (fst e) = true /\ wf_node (snd e) = true) es.
Proof.
  simpl. intros [_ Hall]%andb_prop. revert Hall.
  induction es as [|[nm child] rest IH]; [constructor|].
  intros [[Hnm Hchild]%andb_prop Hrest]%andb_prop.
  constructor; [by split|by apply IH].
Qed.

Lemma regular_files_names (es : list (string * node)) (f : string * list byte) :
  In f (regular_files es) -> In (fst f) (List.map fst es).
Proof.
  unfold regular_files. intros Hin.
  apply in_flat_map in Hin as ([nm n] & He & Hf).
  destruct n as [d|sub]; simpl in Hf; [|destruct Hf].
  destruct Hf as [<-|[]]. simpl.
  apply in_map_iff. by exists (nm, File d).
Qed.

(** In a well-formed tree walked from a clean [top], every file
    found has a path under [top]. *)
Lemma os_walk_under (n : node) :
  forall top,
    clean top ->
    wf_node n = true ->
    forall it f,
      In it (os_walk top n) -> In f (files it) ->
      under top (OsPath.join (root it) (fst f)) = true.
Proof.
  induction n as [d|es IH] using node_induction;
    intros top Htop Hwf it f Hit Hf; [destruct Hit|].
  rewrite os_walk_dir in Hit.
  pose proof (wf_node_dir es Hwf) as Hes.
  destruct Hit as [<-|Hit].
  - simpl in Hf. simpl root. apply regular_files_names in Hf.
    apply in_map_iff in Hf as (e & He & Hin).
    rewrite List.Forall_forall in Hes. destruct (Hes e Hin) as [Hc _].
    rewrite He in Hc.
    destruct (join_component top (fst f) Htop Hc) as [-> _].
    apply under_app.
  - apply in_flat_map in Hit as (e & Hin & Hit).
    rewrite List.Forall_forall in Hes, IH.
    destruct (Hes e Hin) as [Hc Hwfe].
    destruct (join_component top (fst e) Htop Hc) as [E Hclean].
    specialize (IH e Hin (OsPath.join top (fst e)) Hclean Hwfe it f Hit Hf).
    rewrite E in IH. by apply under_trans in IH.
Qed.

Lemma list_session_files_under (u : string) (w : world) :
  is_component u = true ->
  (forall n, fs w !! u = Some n -> wf_node n = true) ->
  forall r file data,
    In (r, file, data) (list_session_files u w) ->
    under (OsPath.join SESSIONS_DIR u) (OsPath.join r file) = true.
Proof.
  intros Hu Hwf r file data Hin.
  unfold list_session_files, session_walk in Hin.
  destruct (fs w !! u) as [n|] eqn:Hn; [|destruct Hin].
  unfold files_of_walk in Hin.
  apply in_flat_map in Hin as (it & Hit & Hin).
  apply in_map_iff in Hin as (f & Hf & Hin).
  inversion Hf; subst r file data.
  eapply os_walk_under; eauto.
  by apply user_dir_clean.
Qed.

(** *** Provenance *)

Lemma load_file_meta (r file : string) (data : list byte)
  (docs : list Document) :
  converters_keep_meta H -> process_keeps_meta H ->
  load_file r file data = Ok docs ->
  forall d, In d docs ->
    meta d = <["name" := file]> (<["path" := OsPath.join r file]> ∅).
Proof.
  intros Hconv Hproc Hload d Hd.
  destruct (accepted file) eqn:Hacc.
  - destruct (load_file_converted r file data Hacc) as (conv & Hin & E).
    rewrite E in Hload.
    destruct (conv _ data _) as [doc|e] eqn:Hdoc; [|discriminate].
    simpl in Hload.
    destruct (Hproc _ _ Hload d Hd) as (d0 & [<-|[]] & ->).
    by apply (Hconv conv Hin _ _ _ _ Hdoc).
  - rewrite load_file_skipped in Hload by exact Hacc.
    inversion Hload; subst docs. destruct Hd.
Qed.

Lemma contributions_meta (fl : list (string * string * list byte))
  (docs : list Document) :
  converters_keep_meta H -> process_keeps_meta H ->
  contributions fl = Ok docs ->
  forall d, In d docs ->
    exists r file data,
      In (r, file, data) fl /\
      meta d = <["name" := file]> (<["path" := OsPath.join r file]> ∅).
Proof.
  intros Hconv Hproc. revert docs.
  induction fl as [|[[r file] data] rest IH]; intros docs Hc d Hd; simpl in Hc.
  - inversion Hc; subst docs. destruct Hd.
  - destruct (load_file r file data) as [docs1|e] eqn:Hload; [|discriminate].
    simpl in Hc.
    destruct (contributions rest) as [more|e]; [|discriminate].
    simpl in Hc. inversion Hc; subst docs.
    apply in_app_or in Hd as [Hd|Hd].
    + exists r, file, data. split; [by left|].
      by apply (load_file_meta r file data docs1).
    + destruct (IH more eq_refl d Hd) as (r' & file' & data' & Hin & Hm).
      exists r', file', data'. split; [by right|exact Hm].
Qed.

End Walk.

(** ** Sessions do not see each other *)

Section Isolation.

Context `{H : Haystack}.

Lemma open_wb_write_frame (u s nm : string) (d : list byte) (w : world) :
  u ≠ s -> fs (snd (open_wb_write u nm d w)) !! s = fs w !! s.
Proof.
  intros Hne. unfold open_wb_write.
  destruct (OsPath.contains NUL nm); [reflexivity|].
  destruct (_ || _); [reflexivity|].
  destruct (fs w !! u) as [[d0|es]|]; [reflexivity| |reflexivity].
  destruct (entry_lookup nm es) as [[d0|sub]|]; simpl;
    [|reflexivity|]; by rewrite lookup_insert_ne.
Qed.

Lemma for_each_frame (u s : string) (files : list UploadedFile) (w : world) :
  u ≠ s ->
  fs (snd (for_each files (fun file =>
             open_wb_write u (OsPath.basename (name file)) (read file)) w))
    !! s = fs w !! s.
Proof.
  intros Hne. revert w. induction files as [|f rest IH]; intros w; simpl;
    [reflexivity|].
  rewrite bind_run.
  pose proof (open_wb_write_frame u s (OsPath.basename (name f)) (read f) w Hne)
    as Hstep.
  destruct (open_wb_write u _ _ w) as [[[]|e] w1]; simpl in *.
  - by rewrite IH.
  - exact Hstep.
Qed.

(** Whether it returns or raises, [add_files] for one user leaves
    the directory of every other user as it was. *)
Lemma add_files_frame (u s : string) (files : list UploadedFile) (w : world) :
  u ≠ s -> fs (snd (add_files u files w)) !! s = fs w !! s.
Proof.
  intros Hne. unfold add_files.
  rewrite bind_run, get_user_dir_run.
  destruct (blocked u w); simpl.
  - by apply with_user_dir_lookup_ne.
  - rewrite bind_run.
    pose proof (for_each_frame u s files (with_user_dir u w) Hne) as Hloop.
    destruct (for_each files _ (with_user_dir u w)) as [[[]|e] w1];
      simpl in *; rewrite Hloop; by apply with_user_dir_lookup_ne.
Qed.

Lemma delete_files_frame (u s : string) (w : world) :
  u ≠ s -> fs (snd (delete_files u w)) !! s = fs w !! s.
Proof.
  intros Hne. unfold delete_files.
  rewrite bind_run, get_user_dir_run.
  pose proof (with_user_dir_lookup_ne u s w Hne) as Hdir.
  destruct (blocked u w); simpl; [exact Hdir|].
  rewrite bind_run. unfold rmtree.
  destruct (fs (with_user_dir u w) !! u) as [[d|es]|]; simpl;
    [exact Hdir| |exact Hdir].
  rewrite bind_run. unfold makedirs. simpl.
  rewrite lookup_delete_eq. simpl.
  by rewrite lookup_insert_ne, lookup_delete_ne.
Qed.

(** What a search returns is a function of the directory of the user
    alone: not of the other directories, not of what the document
    store held. *)
Lemma run_search_local (s q : string) (w w' : world) :
  fs w !! s = fs w' !! s ->
  fst (run_search s q w) = fst (run_search s q w').
Proof.
  intros E.
  rewrite !run_search_run, !search_answers_run, !load_session_run.
  rewrite (list_session_files_fs s w w' E).
  unfold blocked. rewrite E.
  destruct (fs w' !! s) as [[d|es]|]; [reflexivity| |];
    (destruct (contributions _) as [docs|e]; [|reflexivity]);
    simpl; destruct (pipeline_run docs q 10 5); reflexivity.
Qed.

Lemma search_answers_under (s q : string) (w : world)
  (answers : list Answer) :
  answers_from_store H -> converters_keep_meta H -> process_keeps_meta H ->
  is_component s = true ->
  (forall n, fs w !! s = Some n -> wf_node n = true) ->
  fst (search_answers s q w) = Ok answers ->
  forall a, In a answers ->
    exists p,
      answer_meta a !! "path" = Some p /\
      under (OsPath.join SESSIONS_DIR s) p = true.
Proof.
  intros Hans Hconv Hproc Hs Hwf Hrun a Ha.
  rewrite search_answers_run, load_session_run in Hrun.
  destruct (blocked s w); [discriminate|].
  destruct (contributions _) as [docs|e] eqn:Hdocs; [|discriminate].
  simpl in Hrun.
  destruct (Hans docs q 10 5 answers Hrun a Ha) as (d & Hd & ->).
  destruct (contributions_meta _ docs Hconv Hproc Hdocs d Hd)
    as (r & file & data & Hin & ->).
  exists (OsPath.join r file). split.
  - rewrite lookup_insert_ne by discriminate. by rewrite lookup_insert_eq.
  - by apply (list_session_files_under s w Hs Hwf r file data).
Qed.

(** C1: for two different user ids [s1] and [s2], both usable names,
    what
    [run_search s2 q] returns does not change when the directory of
    [s1] changes, however the two worlds differ there and in the
    document store; in particular it is the same after
    [add_files s1 files] and after [delete_files s1] as before.  With
    a library that hands metadata on from file to passage to answer,
    and a well-formed directory of [s2], every answer of the search
    names a path under the directory of [s2], which is not under the
    directory of [s1]. *)
Theorem session_isolation (s1 s2 q : string) (w w' : world) :
  s1 ≠ s2 ->
  is_component s1 = true ->
  is_component s2 = true ->
  (forall s, s ≠ s1 -> fs w !! s = fs w' !! s) ->
  fst (run_search s2 q w) = fst (run_search s2 q w') /\
  (forall files,
      fst (run_search s2 q (snd (add_files s1 files w)))
      = fst (run_search s2 q w)) /\
  fst (run_search s2 q (snd (delete_files s1 w))) = fst (run_search s2 q w) /\
  (answers_from_store H -> converters_keep_meta H -> process_keeps_meta H ->
   (forall n, fs w !! s2 = Some n -> wf_node n = true) ->
   forall answers,
     fst (search_answers s2 q w) = Ok answers ->
     forall a, In a answers ->
       exists p,
         answer_meta a !! "path" = Some p /\
         under (OsPath.join SESSIONS_DIR s2) p = true /\
         under (OsPath.join SESSIONS_DIR s1) p = false).
Proof.
  intros Hne H1 H2 Hsame. split; [|split; [|split]].
  - apply run_search_local, Hsame. congruence.
  - intros files. by apply run_search_local, add_files_frame.
  - by apply run_search_local, delete_files_frame.
  - intros Hans Hconv Hproc Hwf answers Hrun a Ha.
    destruct (search_answers_under s2 q w answers Hans Hconv Hproc H2 Hwf
                Hrun a Ha) as (p & Hp & Hunder).
    exists p. split; [exact Hp|]. split; [exact Hunder|].
    by apply (user_dirs_apart s1 s2).
Qed.

End Isolation.

(** ** The worlds the program makes *)

Section Reachable.

Context `{H : Haystack}.

Lemma basename_no_sep (p : string) :
  OsPath.contains OsPath.sep (OsPath.basename p) = false.
Proof.
  induction p as [|c p IH]; simpl; [reflexivity|].
  destruct (OsPath.contains OsPath.sep p) eqn:Hp; [exact IH|].
  destruct (Ascii.eqb c OsPath.sep) eqn:Hc; [exact Hp|].
  simpl. by rewrite Hc, Hp.
Qed.

Lemma uuid_from_facts (s : string) (i : nat) :
  uuid_from i s = true ->
  OsPath.contains OsPath.sep s = false /\
  OsPath.contains NUL s = false /\
  i + String.length s = 36.
Proof.
  revert i. induction s as [|c s IH]; intros i; simpl.
  - intros Hi%Nat.eqb_eq. repeat split. lia.
  - intros [Hc Hrest]%andb_prop.
    destruct (IH (S i) Hrest) as (Hsep & Hnul & Hlen).
    rewrite Hsep, Hnul, !orb_false_r.
    assert (Ascii.eqb c OsPath.sep = false /\ Ascii.eqb c NUL = false)
      as [-> ->]; [|repeat split; lia].
    match type of Hc with (if ?b then _ else _) = _ => destruct b end.
    + apply Ascii.eqb_eq in Hc as ->. by split.
    + split; apply Ascii.eqb_neq; intros ->; discriminate.
Qed.

(** A user id made by [str(uuid.uuid4())] is a usable name. *)
Lemma uuid_is_component (s : string) :
  is_uuid_text s = true -> is_component s = true.
Proof.
  intros (Hsep & Hnul & Hlen)%uuid_from_facts.
  assert (Hshort : forall t, String.length t < 36 -> String.eqb s t = false).
  { intros t Ht. apply String.eqb_neq. intros ->. lia. }
  unfold is_component. rewrite Hsep, Hnul.
  rewrite !Hshort by (simpl; lia). reflexivity.
Qed.

Lemma written_name_is_component (nm : string) :
  OsPath.contains NUL nm = false ->
  String.eqb nm "" || String.eqb nm "." || String.eqb nm ".." = false ->
  OsPath.contains OsPath.sep nm = false ->
  is_component nm = true.
Proof.
  intros Hnul [[H1 H2]%orb_false_elim H3]%orb_false_elim Hsep.
  unfold is_component. by rewrite H1, H2, H3, Hnul, Hsep.
Qed.

Lemma wf_store (nm : string) (d : list byte) (es : list (string * node)) :
  is_component nm = true ->
  wf_node (Dir es) = true ->
  wf_node (Dir (entry_store nm (File d) es)) = true.
Proof.
  intros Hnm. simpl. intros [Hdist Hall]%andb_prop.
  rewrite distinct_store by exact Hdist. simpl.
  clear Hdist. induction es as [|[k n0] rest IH]; simpl.
  - by rewrite Hnm.
  - apply andb_prop in Hall as [[Hk Hn0]%andb_prop Hrest].
    destruct (String.eqb k nm); simpl.
    + by rewrite Hk, Hrest.
    + by rewrite Hk, Hn0, IH.
Qed.

Lemma session_ok_store (nm : string) (d : list byte) (es : list (string * node)) :
  is_component nm = true ->
  session_ok (Dir es) = true ->
  session_ok (Dir (entry_store nm (File d) es)) = true.
Proof.
  unfold session_ok. intros Hnm [Hflat Hwf]%andb_prop.
  apply andb_true_intro. split; [by apply flat_store|by apply wf_store].
Qed.

Lemma fs_ok_insert (u : string) (n : node) (w : world) :
  is_component u = true -> session_ok n = true ->
  fs_ok w -> fs_ok (set_fs (insert u n) w).
Proof.
  intros Hu Hn Hok s m. simpl.
  destruct (decide (u = s)) as [<-|Hne].
  - rewrite lookup_insert_eq. intros [= <-]. by split.
  - rewrite lookup_insert_ne by exact Hne. apply Hok.
Qed.

Lemma fs_ok_delete (u : string) (w : world) :
  fs_ok w -> fs_ok (set_fs (delete u) w).
Proof.
  intros Hok s m. simpl.
  destruct (decide (u = s)) as [<-|Hne].
  - by rewrite lookup_delete_eq.
  - rewrite lookup_delete_ne by exact Hne. apply Hok.
Qed.

Lemma fs_ok_with_user_dir (u : string) (w : world) :
  is_component u = true -> fs_ok w -> fs_ok (with_user_dir u w).
Proof.
  intros Hu Hok. unfold with_user_dir.
  destruct (fs w !! u); [exact Hok|].
  by apply fs_ok_insert.
Qed.

Lemma fs_ok_open_wb_write (u p : string) (d : list byte) (w : world) :
  is_component u = true -> fs_ok w ->
  fs_ok (snd (open_wb_write u (OsPath.basename p) d w)).
Proof.
  intros Hu Hok. unfold open_wb_write.
  destruct (OsPath.contains NUL _) eqn:Hnul; [exact Hok|].
  destruct (_ || _) eqn:Hdots; [exact Hok|].
  destruct (fs w !! u) as [[d0|es]|] eqn:Hdir; [exact Hok| |exact Hok].
  assert (Hnm : is_component (OsPath.basename p) = true).
  { apply written_name_is_component; auto using basename_no_sep. }
  destruct (Hok u (Dir es) Hdir) as [_ Hes].
  destruct (entry_lookup _ es) as [[d0|sub]|]; simpl;
    [|exact Hok|]; apply fs_ok_insert; auto using session_ok_store.
Qed.

Lemma fs_ok_for_each (u : string) (files : list UploadedFile) (w : world) :
  is_component u = true -> fs_ok w ->
  fs_ok (snd (for_each files (fun file =>
                open_wb_write u (OsPath.basename (name file)) (read file)) w)).
Proof.
  intros Hu. revert w. induction files as [|f rest IH]; intros w Hok; simpl;
    [exact Hok|].
  rewrite bind_run.
  pose proof (fs_ok_open_wb_write u (name f) (read f) w Hu Hok) as Hstep.
  destruct (open_wb_write u _ _ w) as [[[]|e] w1]; simpl in *.
  - by apply IH.
  - exact Hstep.
Qed.

Lemma fs_ok_add_files (u : string) (files : list UploadedFile) (w : world) :
  is_component u = true -> fs_ok w -> fs_ok (snd (add_files u files w)).
Proof.
  intros Hu Hok. unfold add_files.
  rewrite bind_run, get_user_dir_run.
  pose proof (fs_ok_with_user_dir u w Hu Hok) as Hdir.
  destruct (blocked u w); simpl; [exact Hdir|].
  rewrite bind_run.
  pose proof (fs_ok_for_each u files (with_user_dir u w) Hu Hdir) as Hloop.
  destruct (for_each files _ (with_user_dir u w)) as [[[]|e] w1];
    simpl in *; exact Hloop.
Qed.

Lemma fs_ok_delete_files (u : string) (w : world) :
  is_component u = true -> fs_ok w -> fs_ok (snd (delete_files u w)).
Proof.
  intros Hu Hok. unfold delete_files.
  rewrite bind_run, get_user_dir_run.
  pose proof (fs_ok_with_user_dir u w Hu Hok) as Hdir.
  destruct (blocked u w); simpl; [exact Hdir|].
  rewrite bind_run. unfold rmtree.
  destruct (fs (with_user_dir u w) !! u) as [[d|es]|]; simpl;
    [exact Hdir| |exact Hdir].
  rewrite bind_run. unfold makedirs. simpl.
  rewrite lookup_delete_eq. simpl.
  apply (fs_ok_insert u (Dir []) (set_fs (delete u) (with_user_dir u w)));
    [exact Hu|reflexivity|].
  by apply fs_ok_delete.
Qed.

Lemma fs_ok_run_search (u q : string) (w : world) :
  is_component u = true -> fs_ok w -> fs_ok (snd (run_search u q w)).
Proof.
  intros Hu Hok s n. rewrite run_search_fs.
  by apply fs_ok_with_user_dir.
Qed.

(** Every world the program reaches from an empty sessions directory
    is made of flat, well-formed user directories. *)
Lemma reachable_fs_ok (w : world) : reachable w -> fs_ok w.
Proof.
  induction 1 as [st|w w' Hw IH Hstep].
  - intros u n. simpl. by rewrite lookup_empty.
  - destruct Hstep as [u files w Hu|u w Hu|u q w Hu].
    + by apply fs_ok_add_files.
    + by apply fs_ok_delete_files.
    + by apply fs_ok_run_search.
Qed.

(** What the statements above ask of the directory of a user holds
    in every such world. *)
Lemma fs_ok_session (u : string) (w : world) :
  fs_ok w ->
  blocked u w = false /\
  flat (session_entries u w) = true /\
  distinct (List.map fst (session_entries u w)) = true /\
  (forall nm, is_subdir u nm w = false) /\
  (forall n, fs w !! u = Some n -> wf_node n = true).
Proof.
  intros Hok.
  assert (Hflat : flat (session_entries u w) = true).
  { unfold session_entries.
    destruct (fs w !! u) as [[d|es]|] eqn:Hdir; try reflexivity.
    destruct (Hok u (Dir es) Hdir) as [_ Hes].
    by apply andb_prop in Hes as [? _]. }
  split; [|split; [exact Hflat|split; [|split]]].
  - unfold blocked.
    destruct (fs w !! u) as [[d|es]|] eqn:Hdir; try reflexivity.
    by destruct (Hok u (File d) Hdir) as [_ ?].
  - unfold session_entries.
    destruct (fs w !! u) as [[d|es]|] eqn:Hdir; try reflexivity.
    destruct (Hok u (Dir es) Hdir) as [_ Hes].
    apply andb_prop in Hes as [_ Hwf]. simpl in Hwf.
    by apply andb_prop in Hwf as [? _].
  - intros nm. by apply flat_not_subdir.
  - intros n Hdir. destruct (Hok u n Hdir) as [_ Hn].
    destruct n as [d|es]; [discriminate|].
    by apply andb_prop in Hn as [_ ?].
Qed.

End Reachable.

(** ** The statements on the small instance *)

Module DemoFacts.

Import Demo.

Lemma demo_reader_bound : reader_top_k_bound haystack.
Proof.
  intros st q k1 k2 answers Hrun. simpl in Hrun. unfold retrieve in Hrun.
  inversion Hrun; subst answers. rewrite length_firstn. lia.
Qed.

Lemma in_firstn {A : Type} (n : nat) (l : list A) (x : A) :
  In x (firstn n l) -> In x l.
Proof.
  revert l. induction n as [|n IH]; intros [|y l]; simpl; try tauto.
  intros [->|Hin]; [by left|right; by apply IH].
Qed.

Lemma demo_answers_from_store : answers_from_store haystack.
Proof.
  intros st q k1 k2 answers Hrun a Ha. simpl in Hrun. unfold retrieve in Hrun.
  inversion Hrun; subst answers.
  apply in_firstn, in_map_iff in Ha as (d & <- & Hd).
  apply in_firstn, filter_In in Hd as [Hd _].
  by exists d.
Qed.

Lemma demo_converters_keep_meta : converters_keep_meta haystack.
Proof.
  intros conv Hin path data m d Hd. simpl in Hin.
  destruct Hin as [<-|[<-|[<-|[]]]]; unfold decode in Hd;
    by inversion Hd.
Qed.

Lemma demo_process_keeps_meta : process_keeps_meta haystack.
Proof.
  intros docs out Hout d Hd. simpl in Hout.
  inversion Hout; subst out.
  apply filter_In in Hd as [Hd _]. by exists d.
Qed.

Example alice_is_uuid : is_uuid_text alice = true.
Proof. reflexivity. Qed.

Example bob_is_uuid : is_uuid_text bob = true.
Proof. reflexivity. Qed.

Example alice_world_reachable : reachable alice_world.
Proof.
  apply (reachable_step empty_world); [apply reachable_start|].
  by apply step_add_files.
Qed.

Example extension_examples :
  accepted "notes.TXT" = true /\ accepted "report.Pdf" = true /\
  accepted "a.b.docx" = true /\ accepted "notes.md" = false /\
  accepted "txt" = false /\ accepted ".txt" = false /\
  accepted "archive.txt.gz" = false.
Proof. repeat split. Qed.

Example strip_examples :
  Py.strip (String Py.LF "  a b " +:+ Py.of_codes [9; 13; 10]) = "a b" /\
  Py.strip (Py.of_codes [194; 160; 97; 32; 226; 128; 168]) = "a" /\
  Py.strip "   " = "" /\
  Py.replace Py.LF " " (Py.of_codes [97; 10; 10; 98; 13]) = Py.of_codes [97; 32; 32; 98; 13].
Proof. repeat split. Qed.

Example splitext_examples :
  OsPath.splitext "notes.TXT" = ("notes", ".TXT") /\
  OsPath.splitext ".txt" = (".txt", "") /\
  OsPath.splitext "a.b/c" = ("a.b/c", "") /\
  OsPath.splitext "x..txt" = ("x.", ".txt") /\
  OsPath.basename "/tmp/gradio/ab12/doc.txt" = "doc.txt" /\
  OsPath.basename "doc.txt" = "doc.txt" /\
  OsPath.basename "/tmp/gradio/" = "".
Proof. repeat split. Qed.

Example search_finds_fox :
  fst (run_search alice "brown fox" alice_world) =
  Ok ("**Extrait :** The quick brown fox jumps over the lazy dog."
      +:+ String Py.LF (String Py.LF "**Fichier :** doc.txt")
      +:+ String Py.LF "**Chemin :** " +:+ alice_dir +:+ "/doc.txt").
Proof. vm_compute. reflexivity. Qed.

(** The index is one for all users.  The statements of this file
    are about calls that run one after the other; were the first half
    of a search of [alice] to run between the two halves of a search
    of [bob], [bob] would be answered from the passages of [alice]
    (spec, section 5). *)
Example interleaved_search :
  fst (run_search bob "brown" both_world) = Ok "Aucun passage trouvé." /\
  fst ((index_session bob;; index_session alice;; answer_query "brown")
         both_world)
  = Ok (render_results [fox_answer]).
Proof. split; vm_compute; reflexivity. Qed.

Example unusable_name_raises :
  fst (add_files alice [upload "/tmp/gradio/" "x"] empty_world) =
  Raise (IsADirectoryError (alice_dir +:+ "/")).
Proof. vm_compute. reflexivity. Qed.

End DemoFacts.

(** ** The statements at work *)

Lemma session_isolation_witness :
  Demo.alice ≠ Demo.bob /\
  is_component Demo.alice = true /\
  is_component Demo.bob = true /\
  fst (run_search Demo.bob "fox" Demo.both_world)
  = fst (run_search Demo.bob "fox"
           (snd (add_files Demo.alice [Demo.notes] Demo.both_world))) /\
  fst (search_answers Demo.bob "fox" Demo.both_world) = Ok [Demo.revised_answer] /\
  exists p,
    answer_meta Demo.revised_answer !! "path" = Some p /\
    under (OsPath.join SESSIONS_DIR Demo.bob) p = true /\
    under (OsPath.join SESSIONS_DIR Demo.alice) p = false.
Proof.
  assert (Hne : Demo.alice ≠ Demo.bob) by discriminate.
  assert (Ha : is_component Demo.alice = true) by reflexivity.
  assert (Hb : is_component Demo.bob = true) by reflexivity.
  assert (Hans : fst (search_answers Demo.bob "fox" Demo.both_world)
                 = Ok [Demo.revised_answer]) by (vm_compute; reflexivity).
  pose proof (session_isolation Demo.alice Demo.bob "fox" Demo.both_world
                (snd (add_files Demo.alice [Demo.notes] Demo.both_world))
                Hne Ha Hb
                (fun s Hs => eq_sym (add_files_frame Demo.alice s [Demo.notes]
                                       Demo.both_world (not_eq_sym Hs))))
    as (Hsame & _ & _ & Hprov).
  split; [exact Hne|]. split; [exact Ha|]. split; [exact Hb|].
  split; [exact Hsame|]. split; [exact Hans|].
  apply (Hprov DemoFacts.demo_answers_from_store
           DemoFacts.demo_converters_keep_meta
           DemoFacts.demo_process_keeps_meta) with (answers := [Demo.revised_answer]).
  - intros n Hn. vm_compute in Hn. inversion Hn. reflexivity.
  - exact Hans.
  - by left.
Defined.

Lemma index_holds_loaded_passages_witness :
  is_component Demo.alice = true /\
  load_session Demo.alice Demo.alice_world = (Ok [Demo.fox_doc], Demo.alice_world) /\
  contributions (list_session_files Demo.alice Demo.alice_world) = Ok [Demo.fox_doc] /\
  exists w2,
    index_session Demo.alice Demo.alice_world = (Ok tt, w2) /\
    document_store w2 = [Demo.fox_doc] /\
    index_session Demo.alice
      (mkWorld (fs Demo.alice_world) [Demo.fox_doc; Demo.fox_doc]) = (Ok tt, w2) /\
    search_answers Demo.alice "brown fox" Demo.alice_world
    = run_pipeline "brown fox" 10 5 w2.
Proof.
  assert (Hload : load_session Demo.alice Demo.alice_world
                  = (Ok [Demo.fox_doc], Demo.alice_world))
    by (vm_compute; reflexivity).
  split; [reflexivity|]. split; [exact Hload|].
  destruct (index_holds_loaded_passages Demo.alice "brown fox" Demo.alice_world
              Demo.alice_world [Demo.fox_doc] eq_refl Hload)
    as (Hdocs & w2 & Hidx & Hstore & _ & Hany & Hrun).
  split; [exact Hdocs|].
  exists w2. split; [exact Hidx|]. split; [exact Hstore|].
  split; [exact (Hany [Demo.fox_doc; Demo.fox_doc])|exact Hrun].
Defined.

Lemma delete_files_then_list_witness :
  is_component Demo.alice = true /\
  blocked Demo.alice Demo.alice_world = false /\
  exists w',
    delete_files Demo.alice Demo.alice_world
    = (Ok "Tous les fichiers ont été supprimés.", w') /\
    fs w' !! Demo.alice = Some (Dir []) /\
    list_session_files Demo.alice w' = [].
Proof.
  assert (Hb : blocked Demo.alice Demo.alice_world = false)
    by (vm_compute; reflexivity).
  split; [reflexivity|]. split; [exact Hb|].
  exact (delete_files_then_list Demo.alice Demo.alice_world eq_refl Hb).
Defined.

Lemma search_without_files_witness :
  let w := snd (delete_files Demo.alice Demo.alice_world) in
  is_component Demo.alice = true /\
  blocked Demo.alice w = false /\
  list_session_files Demo.alice w = [] /\
  pipeline_run [] "brown fox" 10 5 = Ok [] /\
  run_search Demo.alice "brown fox" w
  = (Ok "Aucun passage trouvé.", mkWorld (fs w) []).
Proof.
  intros w.
  assert (Hb : blocked Demo.alice w = false) by (vm_compute; reflexivity).
  assert (Hl : list_session_files Demo.alice w = [])
    by (vm_compute; reflexivity).
  split; [reflexivity|].
  split; [exact Hb|]. split; [exact Hl|]. split; [reflexivity|].
  destruct (search_without_files Demo.alice "brown fox" w eq_refl Hb Hl)
    as (Hrun & _).
  exact (eq_trans Hrun eq_refl).
Defined.

(** C4, as the specification has it, fails where the pipeline cannot
    query an empty index: [alice] uploaded a file and deleted her
    files, her directory is there and holds no file, and her search
    raises what the pipeline raises instead of returning the
    message. *)
Lemma search_without_files_counterexample :
  let w := snd (delete_files (H := Unindexed.haystack) Demo.alice
                  Demo.alice_world) in
  is_component Demo.alice = true /\
  fs w !! Demo.alice = Some (Dir []) /\
  list_session_files (H := Unindexed.haystack) Demo.alice w = [] /\
  fst (run_search (H := Unindexed.haystack) Demo.alice "brown fox" w)
  = Raise (HaystackError "the retriever cannot query an empty index") /\
  fst (run_search (H := Unindexed.haystack) Demo.alice "brown fox" w)
  ≠ Ok "Aucun passage trouvé.".
Proof.
  intros w.
  split; [reflexivity|]. split; [vm_compute; reflexivity|].
  split; [vm_compute; reflexivity|].
  split; [vm_compute; reflexivity|].
  vm_compute. discriminate.
Qed.


Lemma add_files_overwrites_witness :
  is_component Demo.alice = true /\
  blocked Demo.alice Demo.empty_world = false /\
  flat (session_entries Demo.alice Demo.empty_world) = true /\
  distinct (List.map fst (session_entries Demo.alice Demo.empty_world)) = true /\
  is_component (OsPath.basename (name Demo.fox)) = true /\
  OsPath.basename (name Demo.revised) = OsPath.basename (name Demo.fox) /\
  exists w1 w2,
    add_files Demo.alice [Demo.fox] Demo.empty_world
    = (Ok "1 fichier(s) ajouté(s).", w1) /\
    add_files Demo.alice [Demo.revised] w1 = (Ok "1 fichier(s) ajouté(s).", w2) /\
    List.filter
      (fun e => String.eqb (snd (fst e)) (OsPath.basename (name Demo.fox)))
      (list_session_files Demo.alice w2)
    = [(OsPath.join SESSIONS_DIR Demo.alice, OsPath.basename (name Demo.fox),
        read Demo.revised)] /\
    length (list_session_files Demo.alice w2)
    = length (list_session_files Demo.alice w1).
Proof.
  assert (H1 : blocked Demo.alice Demo.empty_world = false) by reflexivity.
  assert (H2 : flat (session_entries Demo.alice Demo.empty_world) = true)
    by reflexivity.
  assert (H3 : distinct (List.map fst (session_entries Demo.alice Demo.empty_world))
               = true) by reflexivity.
  assert (H4 : is_component (OsPath.basename (name Demo.fox)) = true)
    by reflexivity.
  assert (H5 : OsPath.basename (name Demo.revised) = OsPath.basename (name Demo.fox))
    by reflexivity.
  split; [reflexivity|].
  split; [exact H1|]. split; [exact H2|]. split; [exact H3|].
  split; [exact H4|]. split; [exact H5|].
  exact (add_files_overwrites Demo.alice Demo.fox Demo.revised Demo.empty_world
           eq_refl H1 H2 H3 H4 H5).
Defined.

Lemma search_top_k_witness :
  is_component Demo.alice = true /\
  reader_top_k_bound Demo.haystack /\
  fst (run_search Demo.alice "brown fox" Demo.alice_world)
  = Ok (render_results [Demo.fox_answer]) /\
  exists docs answers,
    fst (load_session Demo.alice Demo.alice_world) = Ok docs /\
    pipeline_run docs "brown fox" 10 5 = Ok answers /\
    render_results [Demo.fox_answer] = render_results answers /\
    length (render_loop answers []) = length answers /\
    length answers <= 5.
Proof.
  assert (Hout : fst (run_search Demo.alice "brown fox" Demo.alice_world)
                 = Ok (render_results [Demo.fox_answer]))
    by (vm_compute; reflexivity).
  split; [reflexivity|].
  split; [exact DemoFacts.demo_reader_bound|]. split; [exact Hout|].
  exact (proj1 (search_top_k Demo.alice "brown fox" Demo.alice_world
                  (render_results [Demo.fox_answer])
                  eq_refl DemoFacts.demo_reader_bound Hout)).
Defined.


Lemma add_files_reports_count_witness :
  is_component Demo.alice = true /\
  blocked Demo.alice Demo.alice_world = false /\
  Forall (writable Demo.alice Demo.alice_world) [Demo.revised; Demo.notes] /\
  exists w',
    add_files Demo.alice [Demo.revised; Demo.notes] Demo.alice_world
    = (Ok "2 fichier(s) ajouté(s).", w') /\
    w' = fold_left (store_upload Demo.alice) [Demo.revised; Demo.notes]
           (with_user_dir Demo.alice Demo.alice_world) /\
    (exists d, entry_lookup "doc.txt" (session_entries Demo.alice w') = Some (File d)) /\
    (exists d, entry_lookup "notes.md" (session_entries Demo.alice w') = Some (File d)).
Proof.
  assert (Hb : blocked Demo.alice Demo.alice_world = false)
    by (vm_compute; reflexivity).
  assert (Hw : Forall (writable Demo.alice Demo.alice_world)
                 [Demo.revised; Demo.notes]).
  { repeat constructor; vm_compute; reflexivity. }
  split; [reflexivity|]. split; [exact Hb|]. split; [exact Hw|].
  destruct (add_files_reports_count Demo.alice [Demo.revised; Demo.notes]
              Demo.alice_world eq_refl Hb Hw) as (w' & Hrun & Hw' & Hall).
  exists w'. split; [exact Hrun|]. split; [exact Hw'|]. split.
  - apply (Hall Demo.revised). by left.
  - apply (Hall Demo.notes). right. by left.
Defined.

Lemma run_search_keeps_files_witness :
  is_component Demo.bob = true /\
  Demo.bob ≠ Demo.alice /\
  list_session_files Demo.alice
    (snd (run_search Demo.bob "brown fox" Demo.alice_world))
  = [(Demo.alice_dir, "doc.txt", read Demo.fox)] /\
  fs (snd (run_search Demo.bob "brown fox" Demo.alice_world)) !! Demo.alice
  = fs Demo.alice_world !! Demo.alice.
Proof.
  assert (Hne : Demo.bob ≠ Demo.alice) by discriminate.
  destruct (run_search_keeps_files Demo.bob "brown fox" Demo.alice
              Demo.alice_world eq_refl)
    as (Hfiles & Hother & _).
  split; [reflexivity|]. split; [exact Hne|]. split; [|exact (Hother (not_eq_sym Hne))].
  rewrite Hfiles. vm_compute. reflexivity.
Defined.

(** * More about the program *)

(** ** The directory of a user *)

Section UserDir.

Context `{H : Haystack}.

Lemma with_user_dir_idem (u : string) (w : world) :
  with_user_dir u (with_user_dir u w) = with_user_dir u w.
Proof.
  apply with_user_dir_id. rewrite with_user_dir_lookup.
  destruct (fs w !! u); by eexists.
Qed.

Lemma with_user_dir_blocked (u : string) (w : world) :
  blocked u w = true -> with_user_dir u w = w.
Proof.
  unfold blocked, with_user_dir.
  destruct (fs w !! u) as [[d|es]|]; [reflexivity|discriminate|discriminate].
Qed.

Lemma world_eq (w : world) (f : gmap string node) (st : list Document) :
  fs w = f -> document_store w = st -> w = mkWorld f st.
Proof. destruct w. simpl. by intros -> ->. Qed.

(** X1: for a user id that is a usable name and no regular file in
    its place, [get_user_dir] returns the path of the sessions
    directory, a separator and the id.  It leaves a world where the
    directory exists: the same world when it existed, with its
    content kept, and the world with one new empty directory when it
    did not.  It does not touch the document store, a second call
    changes nothing more, and two different ids never get the same
    path. *)
Theorem get_user_dir_creates_once (u : string) (w : world) :
  is_component u = true ->
  blocked u w = false ->
  exists w',
    get_user_dir u w = (Ok (SESSIONS_DIR +:+ String OsPath.sep u), w') /\
    (forall n, fs w !! u = Some n -> w' = w) /\
    (fs w !! u = None -> fs w' = <[u := Dir []]> (fs w)) /\
    document_store w' = document_store w /\
    get_user_dir u w' = (Ok (SESSIONS_DIR +:+ String OsPath.sep u), w') /\
    (forall u', is_component u' = true ->
                OsPath.join SESSIONS_DIR u' = OsPath.join SESSIONS_DIR u ->
                u' = u).
Proof.
  intros Hu Hb. destruct (user_dir_clean u Hu) as [Hpath _].
  exists (with_user_dir u w).
  split; [by rewrite get_user_dir_run, Hb, Hpath|].
  split; [intros n Hn; apply with_user_dir_id; by eexists|].
  split; [intros Hn; unfold with_user_dir; by rewrite Hn|].
  split; [apply with_user_dir_store|].
  split.
  - by rewrite get_user_dir_run, blocked_with_user_dir, Hb, Hpath,
      with_user_dir_idem.
  - intros u' Hu' E. destruct (user_dir_clean u' Hu') as [Hpath' _].
    rewrite Hpath, Hpath' in E.
    apply (inj (String.app SESSIONS_DIR)) in E. by inversion E.
Qed.


(** X2: when a regular file stands where the directory of the user
    should be, [add_files], [delete_files] and [run_search] all raise
    the [FileExistsError] of [os.makedirs] for the path of that
    directory, and leave the files and the document store as they
    were. *)
Theorem blocked_user_dir_raises (u q : string) (files : list UploadedFile)
  (w : world) :
  is_component u = true ->
  blocked u w = true ->
  add_files u files w = (Raise (FileExistsError (OsPath.join SESSIONS_DIR u)), w) /\
  delete_files u w = (Raise (FileExistsError (OsPath.join SESSIONS_DIR u)), w) /\
  run_search u q w = (Raise (FileExistsError (OsPath.join SESSIONS_DIR u)), w).
Proof.
  intros _ Hb. pose proof (with_user_dir_blocked u w Hb) as Hw.
  split; [|split].
  - unfold add_files. by rewrite bind_run, get_user_dir_run, Hb, Hw.
  - unfold delete_files. by rewrite bind_run, get_user_dir_run, Hb, Hw.
  - by rewrite run_search_run, search_answers_run, load_session_run, Hb, Hw.
Qed.


Lemma open_wb_write_store (u nm : string) (d : list byte) (w : world) :
  document_store (snd (open_wb_write u nm d w)) = document_store w.
Proof.
  unfold open_wb_write.
  destruct (OsPath.contains NUL nm); [reflexivity|].
  destruct (_ || _); [reflexivity|].
  destruct (fs w !! u) as [[d0|es]|]; [reflexivity| |reflexivity].
  destruct (entry_lookup nm es) as [[d0|sub]|]; reflexivity.
Qed.

Lemma for_each_store (u : string) (files : list UploadedFile) (w : world) :
  document_store
    (snd (for_each files (fun file =>
            open_wb_write u (OsPath.basename (name file)) (read file)) w))
  = document_store w.
Proof.
  revert w. induction files as [|f rest IH]; intros w; simpl; [reflexivity|].
  rewrite bind_run.
  pose proof (open_wb_write_store u (OsPath.basename (name f)) (read f) w)
    as Hstep.
  destruct (open_wb_write u _ _ w) as [[[]|e] w1]; simpl in *.
  - by rewrite IH.
  - exact Hstep.
Qed.

Lemma add_files_store (u : string) (files : list UploadedFile) (w : world) :
  document_store (snd (add_files u files w)) = document_store w.
Proof.
  unfold add_files. rewrite bind_run, get_user_dir_run.
  destruct (blocked u w); simpl; [apply with_user_dir_store|].
  rewrite bind_run.
  pose proof (for_each_store u files (with_user_dir u w)) as Hloop.
  destruct (for_each files _ (with_user_dir u w)) as [[[]|e] w1];
    simpl in *; rewrite Hloop; apply with_user_dir_store.
Qed.

Lemma delete_files_run (u : string) (w : world) :
  blocked u w = false ->
  delete_files u w =
  (Ok "Tous les fichiers ont été supprimés.",
   mkWorld (<[u := Dir []]> (fs w)) (document_store w)).
Proof.
  intros Hb. unfold delete_files.
  rewrite bind_run, get_user_dir_run, Hb.
  rewrite bind_run. unfold rmtree.
  rewrite (session_entries_lookup u w Hb).
  rewrite bind_run. unfold makedirs. simpl.
  rewrite lookup_delete_eq. do 2 f_equal.
  unfold set_fs. simpl. rewrite with_user_dir_store. f_equal.
  rewrite insert_delete_eq. unfold with_user_dir.
  destruct (fs w !! u); [reflexivity|].
  simpl. apply insert_insert_eq.
Qed.

Lemma delete_files_store (u : string) (w : world) :
  document_store (snd (delete_files u w)) = document_store w.
Proof.
  destruct (blocked u w) eqn:Hb.
  - unfold delete_files. rewrite bind_run, get_user_dir_run, Hb. simpl.
    apply with_user_dir_store.
  - by rewrite delete_files_run.
Qed.

(** X3: whether they return or raise, [add_files] and [delete_files]
    for one user leave the document store and the directory of
    every other user as they were: the index changes only in a
    search. *)
Theorem upload_and_delete_frame (u : string) (files : list UploadedFile)
  (w : world) :
  is_component u = true ->
  (document_store (snd (add_files u files w)) = document_store w /\
   forall s, s ≠ u -> fs (snd (add_files u files w)) !! s = fs w !! s) /\
  (document_store (snd (delete_files u w)) = document_store w /\
   forall s, s ≠ u -> fs (snd (delete_files u w)) !! s = fs w !! s).
Proof.
  intros _. split; split.
  - apply add_files_store.
  - intros s Hs. by apply add_files_frame.
  - apply delete_files_store.
  - intros s Hs. by apply delete_files_frame.
Qed.


(** X4: for a user id that is a usable name and no regular file in
    its place, [delete_files] returns its message and leaves exactly
    the world where the directory of the user is empty, whatever it
    held, with every other directory and the document store as they
    were; a second [delete_files] returns the same and changes
    nothing. *)
Theorem delete_files_idempotent (u : string) (w : world) :
  is_component u = true ->
  blocked u w = false ->
  exists w',
    delete_files u w = (Ok "Tous les fichiers ont été supprimés.", w') /\
    fs w' = <[u := Dir []]> (fs w) /\
    document_store w' = document_store w /\
    delete_files u w' = (Ok "Tous les fichiers ont été supprimés.", w').
Proof.
  intros _ Hb. eexists. split; [by apply delete_files_run|].
  split; [reflexivity|]. split; [reflexivity|].
  rewrite delete_files_run.
  - simpl. by rewrite insert_insert_eq.
  - unfold blocked. simpl. by rewrite lookup_insert_eq.
Qed.


End UserDir.

Lemma get_user_dir_creates_once_witness :
  is_component Demo.bob = true /\
  blocked Demo.bob Demo.alice_world = false /\
  exists w',
    get_user_dir Demo.bob Demo.alice_world = (Ok Demo.bob_dir, w') /\
    fs w' !! Demo.bob = Some (Dir []) /\
    get_user_dir Demo.bob w' = (Ok Demo.bob_dir, w').
Proof.
  assert (Hb : blocked Demo.bob Demo.alice_world = false)
    by (vm_compute; reflexivity).
  split; [reflexivity|]. split; [exact Hb|].
  destruct (get_user_dir_creates_once Demo.bob Demo.alice_world eq_refl Hb)
    as (w' & Hrun & _ & Hnew & _ & Hagain & _).
  exists w'. split; [exact Hrun|]. split; [|exact Hagain].
  rewrite Hnew by (vm_compute; reflexivity).
  apply lookup_insert_eq.
Defined.

Lemma blocked_user_dir_raises_witness :
  let w := mkWorld (<[Demo.bob := File []]> ∅) [Demo.fox_doc] in
  is_component Demo.bob = true /\
  blocked Demo.bob w = true /\
  add_files Demo.bob [Demo.fox] w = (Raise (FileExistsError Demo.bob_dir), w) /\
  delete_files Demo.bob w = (Raise (FileExistsError Demo.bob_dir), w) /\
  run_search Demo.bob "fox" w = (Raise (FileExistsError Demo.bob_dir), w).
Proof.
  intros w.
  assert (Hb : blocked Demo.bob w = true) by (vm_compute; reflexivity).
  split; [reflexivity|]. split; [exact Hb|].
  exact (blocked_user_dir_raises Demo.bob "fox" [Demo.fox] w eq_refl Hb).
Defined.

Lemma upload_and_delete_frame_witness :
  is_component Demo.bob = true /\
  document_store (snd (add_files Demo.bob [Demo.revised] Faulty.scan_world))
  = [Demo.fox_doc] /\
  fs (snd (delete_files Demo.bob Demo.both_world)) !! Demo.alice
  = fs Demo.both_world !! Demo.alice.
Proof.
  assert (Hne : Demo.alice ≠ Demo.bob) by discriminate.
  destruct (upload_and_delete_frame Demo.bob [Demo.revised] Faulty.scan_world
              eq_refl) as [[Hstore _] _].
  destruct (upload_and_delete_frame Demo.bob [] Demo.both_world eq_refl)
    as [_ [_ Hframe]].
  split; [reflexivity|]. split; [exact Hstore|exact (Hframe Demo.alice Hne)].
Defined.

Lemma delete_files_idempotent_witness :
  is_component Demo.alice = true /\
  blocked Demo.alice Demo.both_world = false /\
  exists w',
    delete_files Demo.alice Demo.both_world
    = (Ok "Tous les fichiers ont été supprimés.", w') /\
    fs w' = <[Demo.alice := Dir []]> (fs Demo.both_world) /\
    delete_files Demo.alice w' = (Ok "Tous les fichiers ont été supprimés.", w').
Proof.
  assert (Hb : blocked Demo.alice Demo.both_world = false)
    by (vm_compute; reflexivity).
  split; [reflexivity|]. split; [exact Hb|].
  destruct (delete_files_idempotent Demo.alice Demo.both_world eq_refl Hb)
    as (w' & Hrun & Hfs & _ & Hagain).
  exists w'. split; [exact Hrun|]. split; [exact Hfs|exact Hagain].
Defined.

(** ** Uploads *)

Section Uploads.

Context `{H : Haystack}.

Lemma regular_files_cons (k : string) (n : node) (rest : list (string * node)) :
  regular_files ((k, n) :: rest)
  = match n with File d => [(k, d)] | Dir _ => [] end ++ regular_files rest.
Proof. reflexivity. Qed.

Lemma regular_files_store_map (nm : string) (d : list byte)
  (es : list (string * node)) :
  (list_to_map (regular_files (entry_store nm (File d) es))
   : gmap string (list byte))
  = <[nm := d]> (list_to_map (regular_files es)).
Proof.
  induction es as [|[k n0] rest IH]; [reflexivity|].
  change (entry_store nm (File d) ((k, n0) :: rest))
    with (if String.eqb k nm then (k, File d) :: rest
          else (k, n0) :: entry_store nm (File d) rest).
  destruct (String.eqb_spec k nm) as [->|Hne]; rewrite !regular_files_cons.
  - destruct n0 as [d0|sub]; simpl app; rewrite ?list_to_map_cons;
      [by rewrite insert_insert_eq|reflexivity].
  - destruct n0 as [d0|sub]; simpl app; rewrite ?list_to_map_cons.
    + rewrite IH. by apply insert_insert_ne.
    + exact IH.
Qed.

Lemma session_files_map_store_file (u nm : string) (d : list byte) (w : world) :
  session_files_map u (store_file u nm d w) = <[nm := d]> (session_files_map u w).
Proof.
  unfold session_files_map. rewrite store_file_entries.
  apply regular_files_store_map.
Qed.

Lemma session_files_map_fold (u : string) (files : list UploadedFile) (w : world) :
  session_files_map u (fold_left (store_upload u) files w)
  = fold_left put_upload files (session_files_map u w).
Proof.
  revert w. induction files as [|f rest IH]; intros w; simpl; [reflexivity|].
  rewrite IH. unfold store_upload. by rewrite session_files_map_store_file.
Qed.

Lemma fold_put_other (files : list UploadedFile) (m : gmap string (list byte))
  (nm : string) :
  (forall f, In f files -> OsPath.basename (name f) ≠ nm) ->
  fold_left put_upload files m !! nm = m !! nm.
Proof.
  revert m. induction files as [|f rest IH]; intros m Hnm; simpl; [reflexivity|].
  rewrite IH by (intros f' Hf'; apply Hnm; by right).
  unfold put_upload. apply lookup_insert_ne, Hnm. by left.
Qed.

Lemma fold_store_dir (u : string) (files : list UploadedFile) (w : world) :
  fs w !! u = Some (Dir (session_entries u w)) ->
  fs (fold_left (store_upload u) files w) !! u
  = Some (Dir (session_entries u (fold_left (store_upload u) files w))).
Proof.
  revert w. induction files as [|f rest IH]; intros w Hdir; simpl; [exact Hdir|].
  apply IH. unfold store_upload. by rewrite store_file_lookup, store_file_entries.
Qed.

Lemma fold_store_not_subdir (u nm : string) (files : list UploadedFile) (w : world) :
  is_subdir u nm w = false ->
  is_subdir u nm (fold_left (store_upload u) files w) = false.
Proof.
  revert w. induction files as [|f rest IH]; intros w Hsub; simpl; [exact Hsub|].
  apply IH. by apply is_subdir_store_file.
Qed.

Lemma with_user_dir_dir (u : string) (w : world) :
  blocked u w = false ->
  fs (with_user_dir u w) !! u
  = Some (Dir (session_entries u (with_user_dir u w))).
Proof.
  intros Hb. rewrite session_entries_with_user_dir.
  by apply session_entries_lookup.
Qed.

Lemma session_files_map_with_user_dir (u : string) (w : world) :
  session_files_map u (with_user_dir u w) = session_files_map u w.
Proof. unfold session_files_map. by rewrite session_entries_with_user_dir. Qed.

(** X5: the directory of a user works as a dictionary from base name
    to bytes.  A successful [add_files] puts every upload, in turn,
    under its base name: a file stored under another name keeps its
    bytes, and of several uploads with one base name the last one is
    the file that stays. *)
Theorem add_files_updates_dictionary (u : string) (files : list UploadedFile)
  (w : world) :
  is_component u = true ->
  blocked u w = false ->
  Forall (writable u w) files ->
  exists w',
    add_files u files w =
      (Ok (Py.str_of_nat (length files) +:+ " fichier(s) ajouté(s)."), w') /\
    session_files_map u w' = fold_left put_upload files (session_files_map u w) /\
    (forall nm,
        (forall f, In f files -> OsPath.basename (name f) ≠ nm) ->
        session_files_map u w' !! nm = session_files_map u w !! nm) /\
    (forall pre f post,
        files = pre ++ f :: post ->
        (forall f', In f' post ->
                    OsPath.basename (name f') ≠ OsPath.basename (name f)) ->
        session_files_map u w' !! OsPath.basename (name f) = Some (read f)).
Proof.
  intros _ Hb Hall. eexists. split; [by apply add_files_run|].
  rewrite session_files_map_fold, session_files_map_with_user_dir.
  split; [reflexivity|]. split.
  - intros nm Hnm. by apply fold_put_other.
  - intros pre f post -> Hpost.
    rewrite fold_left_app. simpl.
    rewrite fold_put_other by exact Hpost.
    unfold put_upload at 1. apply lookup_insert_eq.
Qed.

(** X6: uploading a list of files in one call of [add_files] leaves
    the same world as uploading a first part of it and then the rest
    in a second call, when every upload can be written. *)
Theorem add_files_in_two_calls (u : string) (files1 files2 : list UploadedFile)
  (w : world) :
  is_component u = true ->
  blocked u w = false ->
  Forall (writable u w) (files1 ++ files2) ->
  exists w1 w2,
    add_files u files1 w =
      (Ok (Py.str_of_nat (length files1) +:+ " fichier(s) ajouté(s)."), w1) /\
    add_files u files2 w1 =
      (Ok (Py.str_of_nat (length files2) +:+ " fichier(s) ajouté(s)."), w2) /\
    add_files u (files1 ++ files2) w =
      (Ok (Py.str_of_nat (length (files1 ++ files2)) +:+ " fichier(s) ajouté(s)."),
       w2).
Proof.
  intros _ Hb Hall.
  apply Forall_app in Hall as [Hall1 Hall2].
  set (w1 := fold_left (store_upload u) files1 (with_user_dir u w)).
  assert (Hdir1 : fs w1 !! u = Some (Dir (session_entries u w1))).
  { apply fold_store_dir. by apply with_user_dir_dir. }
  assert (Hb1 : blocked u w1 = false).
  { unfold blocked. by rewrite Hdir1. }
  assert (Hw1 : with_user_dir u w1 = w1).
  { apply with_user_dir_id. rewrite Hdir1. by eexists. }
  exists w1, (fold_left (store_upload u) files2 w1).
  split; [by apply add_files_run|]. split.
  - rewrite add_files_run, Hw1; [reflexivity|exact Hb1|].
    eapply Forall_impl; [exact Hall2|].
    intros f [Hc Hs]. split; [exact Hc|].
    apply fold_store_not_subdir.
    unfold is_subdir in *. by rewrite session_entries_with_user_dir.
  - rewrite add_files_run; [|exact Hb|by apply Forall_app].
    by rewrite fold_left_app.
Qed.

Lemma for_each_app {A : Type} (xs ys : list A) (body : A -> M unit) (w : world) :
  for_each (xs ++ ys) body w =
  match for_each xs body w with
  | (Ok _, w1) => for_each ys body w1
  | (Raise e, w1) => (Raise e, w1)
  end.
Proof.
  revert w. induction xs as [|x rest IH]; intros w; simpl; [reflexivity|].
  rewrite !bind_run.
  destruct (body x w) as [[[]|e] w1]; [apply IH|reflexivity].
Qed.

(** X7: [add_files] does not undo what it wrote.  When an upload has
    no usable base name (its name is empty or ends with a separator,
    or ends in [.] or [..]), [open] raises [IsADirectoryError] for the
    destination path: the uploads before it in the list are stored,
    the ones after it are not, and no count is returned. *)
Theorem add_files_stops_at_bad_name (u : string)
  (pre post : list UploadedFile) (bad : UploadedFile) (w : world) :
  is_component u = true ->
  blocked u w = false ->
  Forall (writable u w) pre ->
  In (OsPath.basename (name bad)) [""; "."; ".."] ->
  add_files u (pre ++ bad :: post) w =
  (Raise (IsADirectoryError
            (OsPath.join (OsPath.join SESSIONS_DIR u) (OsPath.basename (name bad)))),
   fold_left (store_upload u) pre (with_user_dir u w)).
Proof.
  intros _ Hb Hpre Hbad. unfold add_files.
  rewrite bind_run, get_user_dir_run, Hb.
  rewrite bind_run, for_each_app, for_each_upload.
  - simpl for_each. rewrite bind_run. unfold open_wb_write at 1.
    simpl in Hbad.
    destruct Hbad as [<-|[<-|[<-|[]]]]; reflexivity.
  - by apply with_user_dir_dir.
  - eapply Forall_impl; [exact Hpre|].
    intros f [Hc Hs]. split; [exact Hc|].
    unfold is_subdir in *. by rewrite session_entries_with_user_dir.
Qed.

Lemma contains_app (c : ascii) (a b : string) :
  OsPath.contains c (a +:+ b) = OsPath.contains c a || OsPath.contains c b.
Proof.
  induction a as [|x a IH]; [reflexivity|].
  rewrite str_app_cons. simpl. by rewrite IH, orb_assoc.
Qed.

Lemma basename_after_sep (a b : string) :
  OsPath.contains OsPath.sep b = false ->
  OsPath.basename (a +:+ String OsPath.sep b) = b.
Proof.
  intros Hb. induction a as [|c a IH].
  - rewrite str_app_nil_l. simpl. by rewrite Hb.
  - rewrite str_app_cons. simpl.
    rewrite contains_app. simpl. by rewrite orb_true_r.
Qed.

(** X8: whatever name an upload carries, a path with directories or
    with [..] in it, [add_files] writes it directly in the directory
    of the user: the base name holds no separator, and when it is a
    usable name the destination path is the directory of the user, a
    separator and the base name, whose base name is again that
    name. *)
Theorem upload_destination (u nm : string) :
  is_component u = true ->
  let b := OsPath.basename nm in
  let dest := OsPath.join (OsPath.join SESSIONS_DIR u) b in
  OsPath.contains OsPath.sep b = false /\
  (is_component b = true ->
   dest = SESSIONS_DIR +:+ String OsPath.sep u +:+ String OsPath.sep b /\
   under (OsPath.join SESSIONS_DIR u) dest = true /\
   OsPath.basename dest = b).
Proof.
  intros Hu b dest. split; [apply basename_no_sep|].
  intros Hb. destruct (user_dir_clean u Hu) as [Hdir Hclean].
  destruct (join_component _ b Hclean Hb) as [Hdest _].
  unfold dest. rewrite Hdest. split; [|split].
  - by rewrite Hdir, str_app_assoc.
  - apply under_app.
  - apply basename_after_sep, basename_no_sep.
Qed.

Lemma existsb_eqb_app (x : string) (a b : list string) :
  existsb (String.eqb x) (a ++ b)
  = existsb (String.eqb x) a || existsb (String.eqb x) b.
Proof. apply existsb_app. Qed.

Lemma distinct_middle (a b : list string) (x : string) :
  distinct (a ++ x :: b) = true -> existsb (String.eqb x) a = false.
Proof.
  induction a as [|y a IH]; simpl; [reflexivity|].
  intros [Hy Hrest]%andb_prop.
  apply negb_true_iff in Hy. rewrite existsb_eqb_app in Hy. simpl in Hy.
  apply orb_false_elim in Hy as [_ [Hyx _]%orb_false_elim].
  rewrite String.eqb_sym, Hyx. by apply IH.
Qed.

Lemma entry_store_fresh (nm : string) (n : node) (es : list (string * node)) :
  existsb (String.eqb nm) (List.map fst es) = false ->
  entry_store nm n es = es ++ [(nm, n)].
Proof.
  induction es as [|[k n0] rest IH]; simpl; [reflexivity|].
  intros [Hk Hrest]%orb_false_elim.
  rewrite String.eqb_sym, Hk. by rewrite IH.
Qed.

Lemma fold_store_fresh (u : string) (files : list UploadedFile) (w : world) :
  distinct (List.map fst (session_entries u w)
            ++ List.map (fun f => OsPath.basename (name f)) files) = true ->
  session_entries u (fold_left (store_upload u) files w)
  = session_entries u w
    ++ List.map (fun f => (OsPath.basename (name f), File (read f))) files.
Proof.
  revert w. induction files as [|f rest IH]; intros w Hdist; simpl.
  - by rewrite app_nil_r.
  - assert (Hstep : session_entries u (store_upload u w f)
                    = session_entries u w
                      ++ [(OsPath.basename (name f), File (read f))]).
    { unfold store_upload. rewrite store_file_entries.
      apply entry_store_fresh. by apply distinct_middle in Hdist. }
    rewrite IH, Hstep.
    + by rewrite <- app_assoc.
    + rewrite Hstep, map_app, <- app_assoc. exact Hdist.
Qed.

Lemma flat_uploads (files : list UploadedFile) :
  flat (List.map (fun f => (OsPath.basename (name f), File (read f))) files) = true.
Proof. unfold flat. induction files; simpl; auto. Qed.

Lemma regular_files_uploads (files : list UploadedFile) :
  regular_files (List.map (fun f => (OsPath.basename (name f), File (read f))) files)
  = List.map (fun f => (OsPath.basename (name f), read f)) files.
Proof. induction files as [|f rest IH]; simpl; [reflexivity|by rewrite <- IH]. Qed.

(** X9: after [delete_files], an [add_files] of uploads with usable,
    pairwise different base names succeeds, and the listing of the
    session then holds exactly these uploads, each once, under the
    directory of the user with its base name and its bytes (in the
    order the directory gives them); the load step of a search reads
    the files of that listing. *)
Theorem upload_after_clear (u : string) (files : list UploadedFile) (w : world) :
  is_component u = true ->
  blocked u w = false ->
  Forall (fun f => is_component (OsPath.basename (name f)) = true) files ->
  distinct (List.map (fun f => OsPath.basename (name f)) files) = true ->
  exists w1 w2,
    delete_files u w = (Ok "Tous les fichiers ont été supprimés.", w1) /\
    add_files u files w1 =
      (Ok (Py.str_of_nat (length files) +:+ " fichier(s) ajouté(s)."), w2) /\
    Permutation (list_session_files u w2)
      (List.map (fun f => (OsPath.join SESSIONS_DIR u, OsPath.basename (name f), read f))
         files) /\
    fst (load_session u w2) = contributions (list_session_files u w2).
Proof.
  intros _ Hb Hnames Hdist.
  set (w1 := mkWorld (<[u := Dir []]> (fs w)) (document_store w)).
  assert (Hdir1 : fs w1 !! u = Some (Dir [])).
  { unfold w1. simpl. apply lookup_insert_eq. }
  assert (He1 : session_entries u w1 = []).
  { unfold session_entries. by rewrite Hdir1. }
  assert (Hb1 : blocked u w1 = false).
  { unfold blocked. by rewrite Hdir1. }
  assert (Hw1 : with_user_dir u w1 = w1).
  { apply with_user_dir_id. rewrite Hdir1. by eexists. }
  set (w2 := fold_left (store_upload u) files w1).
  assert (He2 : session_entries u w2
                = List.map (fun f => (OsPath.basename (name f), File (read f))) files).
  { unfold w2. rewrite fold_store_fresh; rewrite He1; [reflexivity|exact Hdist]. }
  assert (Hdir2 : fs w2 !! u = Some (Dir (session_entries u w2))).
  { apply fold_store_dir. by rewrite Hdir1, He1. }
  assert (Hlist : list_session_files u w2 =
            List.map (fun f => (OsPath.join SESSIONS_DIR u,
                                OsPath.basename (name f), read f)) files).
  { rewrite (list_session_files_flat u w2 _ Hdir2); rewrite He2.
    - rewrite regular_files_uploads, map_map. reflexivity.
    - apply flat_uploads. }
  exists w1, w2. split; [by apply delete_files_run|]. split; [|split].
  - rewrite add_files_run, Hw1; [reflexivity|exact Hb1|].
    eapply Forall_impl; [exact Hnames|].
    intros f Hf. split; [exact Hf|].
    unfold is_subdir. by rewrite He1.
  - by rewrite Hlist.
  - rewrite load_session_run.
    unfold blocked. by rewrite Hdir2.
Qed.

End Uploads.

Lemma add_files_updates_dictionary_witness :
  is_component Demo.alice = true /\
  blocked Demo.alice Demo.alice_world = false /\
  Forall (writable Demo.alice Demo.alice_world) [Demo.revised; Demo.notes; Demo.fox] /\
  exists w',
    add_files Demo.alice [Demo.revised; Demo.notes; Demo.fox] Demo.alice_world
    = (Ok "3 fichier(s) ajouté(s).", w') /\
    session_files_map Demo.alice w' !! "doc.txt" = Some (read Demo.fox) /\
    session_files_map Demo.alice w' !! "notes.md" = Some (read Demo.notes).
Proof.
  assert (Hb : blocked Demo.alice Demo.alice_world = false)
    by (vm_compute; reflexivity).
  assert (Hw : Forall (writable Demo.alice Demo.alice_world)
                 [Demo.revised; Demo.notes; Demo.fox]).
  { repeat constructor; vm_compute; reflexivity. }
  split; [reflexivity|]. split; [exact Hb|]. split; [exact Hw|].
  destruct (add_files_updates_dictionary Demo.alice
              [Demo.revised; Demo.notes; Demo.fox] Demo.alice_world eq_refl Hb Hw)
    as (w' & Hrun & _ & _ & Hlast).
  exists w'. split; [exact Hrun|]. split.
  - apply (Hlast [Demo.revised; Demo.notes] Demo.fox []); [reflexivity|].
    intros f' [].
  - apply (Hlast [Demo.revised] Demo.notes [Demo.fox]); [reflexivity|].
    intros f' [<-|[]]. discriminate.
Defined.

Lemma add_files_in_two_calls_witness :
  is_component Demo.alice = true /\
  blocked Demo.alice Demo.empty_world = false /\
  Forall (writable Demo.alice Demo.empty_world) ([Demo.fox] ++ [Demo.notes]) /\
  exists w1 w2,
    add_files Demo.alice [Demo.fox] Demo.empty_world
    = (Ok "1 fichier(s) ajouté(s).", w1) /\
    add_files Demo.alice [Demo.notes] w1 = (Ok "1 fichier(s) ajouté(s).", w2) /\
    add_files Demo.alice [Demo.fox; Demo.notes] Demo.empty_world
    = (Ok "2 fichier(s) ajouté(s).", w2).
Proof.
  assert (Hb : blocked Demo.alice Demo.empty_world = false) by reflexivity.
  assert (Hw : Forall (writable Demo.alice Demo.empty_world)
                 ([Demo.fox] ++ [Demo.notes])).
  { repeat constructor; vm_compute; reflexivity. }
  split; [reflexivity|]. split; [exact Hb|]. split; [exact Hw|].
  exact (add_files_in_two_calls Demo.alice [Demo.fox] [Demo.notes]
           Demo.empty_world eq_refl Hb Hw).
Defined.

Lemma add_files_stops_at_bad_name_witness :
  let bad := Demo.upload "/tmp/gradio/" "lost" in
  is_component Demo.alice = true /\
  blocked Demo.alice Demo.empty_world = false /\
  Forall (writable Demo.alice Demo.empty_world) [Demo.fox] /\
  In (OsPath.basename (name bad)) [""; "."; ".."] /\
  add_files Demo.alice ([Demo.fox] ++ bad :: [Demo.notes]) Demo.empty_world
  = (Raise (IsADirectoryError (Demo.alice_dir +:+ "/")), Demo.alice_world).
Proof.
  intros bad.
  assert (Hb : blocked Demo.alice Demo.empty_world = false) by reflexivity.
  assert (Hw : Forall (writable Demo.alice Demo.empty_world) [Demo.fox]).
  { repeat constructor; vm_compute; reflexivity. }
  assert (Hbad : In (OsPath.basename (name bad)) [""; "."; ".."]) by (by left).
  split; [reflexivity|]. split; [exact Hb|]. split; [exact Hw|].
  split; [exact Hbad|].
  exact (add_files_stops_at_bad_name Demo.alice [Demo.fox] [Demo.notes] bad
           Demo.empty_world eq_refl Hb Hw Hbad).
Defined.

Lemma upload_destination_witness :
  is_component Demo.alice = true /\
  is_component (OsPath.basename "../../etc/passwd") = true /\
  OsPath.join (OsPath.join SESSIONS_DIR Demo.alice)
    (OsPath.basename "../../etc/passwd")
  = Demo.alice_dir +:+ "/passwd" /\
  under (OsPath.join SESSIONS_DIR Demo.alice)
    (OsPath.join (OsPath.join SESSIONS_DIR Demo.alice)
       (OsPath.basename "../../etc/passwd")) = true.
Proof.
  destruct (upload_destination Demo.alice "../../etc/passwd" eq_refl)
    as [_ Hdest].
  destruct (Hdest eq_refl) as (Hpath & Hunder & _).
  split; [reflexivity|]. split; [reflexivity|].
  split; [exact Hpath|exact Hunder].
Defined.

Lemma upload_after_clear_witness :
  is_component Demo.alice = true /\
  blocked Demo.alice Demo.alice_world = false /\
  Forall (fun f => is_component (OsPath.basename (name f)) = true)
    [Demo.revised; Demo.notes] /\
  distinct (List.map (fun f => OsPath.basename (name f)) [Demo.revised; Demo.notes])
  = true /\
  exists w1 w2,
    delete_files Demo.alice Demo.alice_world
    = (Ok "Tous les fichiers ont été supprimés.", w1) /\
    add_files Demo.alice [Demo.revised; Demo.notes] w1
    = (Ok "2 fichier(s) ajouté(s).", w2) /\
    Permutation (list_session_files Demo.alice w2)
      [(Demo.alice_dir, "doc.txt", read Demo.revised);
       (Demo.alice_dir, "notes.md", read Demo.notes)].
Proof.
  assert (Hb : blocked Demo.alice Demo.alice_world = false)
    by (vm_compute; reflexivity).
  assert (Hn : Forall (fun f => is_component (OsPath.basename (name f)) = true)
                 [Demo.revised; Demo.notes]).
  { repeat constructor. }
  assert (Hd : distinct (List.map (fun f => OsPath.basename (name f))
                           [Demo.revised; Demo.notes]) = true) by reflexivity.
  split; [reflexivity|]. split; [exact Hb|]. split; [exact Hn|].
  split; [exact Hd|].
  destruct (upload_after_clear Demo.alice [Demo.revised; Demo.notes]
              Demo.alice_world eq_refl Hb Hn Hd)
    as (w1 & w2 & Hdel & Hadd & Hlist & _).
  exists w1, w2. split; [exact Hdel|]. split; [exact Hadd|exact Hlist].
Defined.

(** ** Searches *)

Section Searches.

Context `{H : Haystack}.

Lemma run_search_cases (u q : string) (w : world) :
  run_search u q w =
  if blocked u w then (Raise (FileExistsError (OsPath.join SESSIONS_DIR u)), w)
  else
    match contributions (list_session_files u w) with
    | Raise e => (Raise e, with_user_dir u w)
    | Ok docs =>
        (render_results <$> pipeline_run docs q 10 5,
         mkWorld (fs (with_user_dir u w)) docs)
    end.
Proof.
  rewrite run_search_run, search_answers_run, load_session_run.
  destruct (blocked u w) eqn:Hb; [by rewrite with_user_dir_blocked|].
  destruct (contributions _) as [docs|e]; [|reflexivity].
  destruct (pipeline_run docs q 10 5); reflexivity.
Qed.

Lemma blocked_fs (u : string) (w w' : world) :
  fs w !! u = fs w' !! u -> blocked u w = blocked u w'.
Proof. intros E. unfold blocked. by rewrite E. Qed.

Lemma run_search_result (u q : string) (w w' : world) :
  blocked u w = blocked u w' ->
  list_session_files u w = list_session_files u w' ->
  fst (run_search u q w) = fst (run_search u q w').
Proof.
  intros Hb Hl. rewrite !run_search_cases, Hb, Hl.
  destruct (blocked u w'); [reflexivity|].
  destruct (contributions _); reflexivity.
Qed.

Lemma run_search_repeat (u q : string) (w : world) :
  run_search u q (snd (run_search u q w)) = run_search u q w.
Proof.
  rewrite (run_search_cases u q w).
  destruct (blocked u w) eqn:Hb.
  - simpl. by rewrite run_search_cases, Hb.
  - destruct (contributions (list_session_files u w)) as [docs|e] eqn:Hdocs.
    + simpl. set (w1 := mkWorld (fs (with_user_dir u w)) docs).
      assert (Hfs : fs w1 !! u = fs (with_user_dir u w) !! u) by reflexivity.
      rewrite run_search_cases.
      rewrite (blocked_fs u w1 (with_user_dir u w) Hfs), blocked_with_user_dir, Hb.
      rewrite (list_session_files_fs u w1 (with_user_dir u w) Hfs).
      rewrite list_session_files_with_user_dir, Hdocs.
      rewrite with_user_dir_id; [reflexivity|].
      rewrite Hfs, with_user_dir_lookup. destruct (fs w !! u); by eexists.
    + simpl. rewrite run_search_cases, blocked_with_user_dir, Hb.
      by rewrite list_session_files_with_user_dir, Hdocs, with_user_dir_idem.
Qed.

(** X10: a search leaves no trace for the next one.  What
    [run_search] returns or raises for a user and a query is the same
    after any earlier search, of any user with any query, as without
    it: nothing of the index or of the result of the earlier search
    is used.  Run again with the same query on the world it left, it
    also leaves that world as it is. *)
Theorem search_leaves_no_trace (u q u1 q1 : string) (w : world) :
  is_component u = true ->
  is_component u1 = true ->
  fst (run_search u q (snd (run_search u1 q1 w))) = fst (run_search u q w) /\
  snd (run_search u q (snd (run_search u q w))) = snd (run_search u q w).
Proof.
  intros _ _. split; [|by rewrite run_search_repeat].
  apply run_search_result.
  - destruct (decide (u1 = u)) as [->|Hne].
    + rewrite <- (blocked_with_user_dir u w).
      apply blocked_fs. by rewrite run_search_fs.
    + apply blocked_fs. rewrite run_search_fs.
      by apply with_user_dir_lookup_ne.
  - rewrite <- (list_session_files_with_user_dir u1 u w).
    apply list_session_files_fs. by rewrite run_search_fs.
Qed.

Lemma contributions_raise (pre post : list (string * string * list byte))
  (r file : string) (data : list byte) (docs : list Document) (e : exn) :
  contributions pre = Ok docs ->
  load_file r file data = Raise e ->
  contributions (pre ++ (r, file, data) :: post) = Raise e.
Proof.
  intros Hpre Hfile. rewrite contributions_app, Hpre. simpl.
  by rewrite Hfile.
Qed.

(** X11: a file that cannot be converted fails the whole search.
    When the files before it in the walk load and its converter or
    the preprocessor raises, [run_search] raises that exception: the
    files after it are not read, the pipeline is not called, and
    the document store still holds what it held before the call. *)
Theorem conversion_error_fails_search (u q : string) (w : world)
  (pre post : list (string * string * list byte))
  (r file : string) (data : list byte) (docs : list Document) (e : exn) :
  is_component u = true ->
  blocked u w = false ->
  list_session_files u w = pre ++ (r, file, data) :: post ->
  contributions pre = Ok docs ->
  load_file r file data = Raise e ->
  run_search u q w = (Raise e, with_user_dir u w) /\
  document_store (snd (run_search u q w)) = document_store w.
Proof.
  intros _ Hb Hlist Hpre Hfile.
  assert (Hrun : run_search u q w = (Raise e, with_user_dir u w)).
  { rewrite run_search_cases, Hb, Hlist.
    by rewrite (contributions_raise pre post r file data docs e). }
  split; [exact Hrun|]. rewrite Hrun. apply with_user_dir_store.
Qed.

(** X12: when the files load and the pipeline raises, [run_search]
    raises that exception after the index was rebuilt: the document
    store holds the passages of this session, and the files are as
    they were. *)
Theorem pipeline_error_after_reindex (u q : string) (w : world)
  (docs : list Document) (e : exn) :
  is_component u = true ->
  blocked u w = false ->
  contributions (list_session_files u w) = Ok docs ->
  pipeline_run docs q 10 5 = Raise e ->
  run_search u q w = (Raise e, mkWorld (fs (with_user_dir u w)) docs).
Proof.
  intros _ Hb Hdocs Hrun.
  by rewrite run_search_cases, Hb, Hdocs, Hrun.
Qed.

Lemma filter_none {A : Type} (p : A -> bool) (l : list A) :
  Forall (fun x => p x = false) l -> List.filter p l = [].
Proof.
  induction 1 as [|x rest Hx Hrest IH]; simpl; [reflexivity|].
  by rewrite Hx.
Qed.

(** X13: a session that holds only files of other formats is
    searched like an empty one: no converter is called, the index is
    left empty, and with a pipeline that answers nothing on an empty
    index the search returns "Aucun passage trouvé.". *)
Theorem other_formats_find_nothing (u q : string) (w : world) :
  is_component u = true ->
  blocked u w = false ->
  Forall (fun e => accepted (snd (fst e)) = false) (list_session_files u w) ->
  pipeline_run [] q 10 5 = Ok [] ->
  run_search u q w =
  (Ok "Aucun passage trouvé.", mkWorld (fs (with_user_dir u w)) []).
Proof.
  intros _ Hb Hother Hpipe.
  rewrite run_search_cases, Hb, contributions_accepted.
  rewrite filter_none by exact Hother.
  simpl. by rewrite Hpipe.
Qed.

Lemma join_starts_with_block (a : Answer) (rest : list string) :
  exists r, Py.join divider (render_answer a :: rest) = String "*" r.
Proof. destruct rest; eexists; reflexivity. Qed.

Lemma render_results_no_passage (answers : list Answer) :
  render_results answers = "Aucun passage trouvé." <-> answers = [].
Proof.
  split; [|by intros ->].
  destruct answers as [|a rest]; [reflexivity|].
  rewrite render_results_cons. simpl List.map.
  destruct (join_starts_with_block a (List.map render_answer rest)) as [r ->].
  discriminate.
Qed.

(** X14: the message "Aucun passage trouvé." is returned only when
    the pipeline gave no answer: the rendering of one or more
    answers starts with a block and is never that message. *)
Theorem no_passage_means_no_answer (u q : string) (w : world) :
  is_component u = true ->
  (fst (run_search u q w) = Ok "Aucun passage trouvé."
   <-> fst (search_answers u q w) = Ok []) /\
  (forall a rest, render_results (a :: rest) ≠ "Aucun passage trouvé.").
Proof.
  intros _. split.
  - rewrite run_search_run.
    destruct (search_answers u q w) as [[answers|e] w']; simpl.
    + split.
      * intros [= E]. by apply render_results_no_passage in E as ->.
      * by intros [= ->].
    + split; discriminate.
  - intros a rest E. by apply render_results_no_passage in E.
Qed.

End Searches.

(** ** The interface *)

Section Clicks.

Context `{H : Haystack}.

Lemma on_click_frame (user_id s : string) (c : click) (w : world) :
  s ≠ user_id -> fs (snd (on_click user_id c w)) !! s = fs w !! s.
Proof.
  intros Hs. destruct c as [files| |q]; simpl.
  - by apply add_files_frame.
  - by apply delete_files_frame.
  - rewrite run_search_fs. by apply with_user_dir_lookup_ne.
Qed.

(** X15: the interface works on one directory.  Whatever is clicked,
    in whatever order and with whatever files and queries, every
    entry of the sessions directory other than the directory of the
    one user id of the interface stays as it was. *)
Theorem clicks_touch_one_directory (user_id : string) (cs : list click)
  (w : world) :
  is_component user_id = true ->
  forall s, s ≠ user_id -> fs (run_clicks user_id cs w) !! s = fs w !! s.
Proof.
  intros _ s Hs. unfold run_clicks. revert w.
  induction cs as [|c rest IH]; intros w; simpl; [reflexivity|].
  rewrite IH. by apply on_click_frame.
Qed.

Lemma on_click_fs_ok (user_id : string) (c : click) (w : world) :
  is_component user_id = true -> fs_ok w -> fs_ok (snd (on_click user_id c w)).
Proof.
  intros Hu Hok. destruct c as [files| |q]; simpl.
  - by apply fs_ok_add_files.
  - by apply fs_ok_delete_files.
  - by apply fs_ok_run_search.
Qed.

Lemma run_clicks_fs_ok (user_id : string) (cs : list click) (w : world) :
  is_component user_id = true -> fs_ok w -> fs_ok (run_clicks user_id cs w).
Proof.
  intros Hu. unfold run_clicks. revert w.
  induction cs as [|c rest IH]; intros w Hok; simpl; [exact Hok|].
  by apply IH, on_click_fs_ok.
Qed.

(** X16: from a sessions directory of flat user directories, the
    empty one for instance, every sequence of clicks leaves flat user
    directories: whatever names the uploads carry, each directory
    holds regular files only, under usable and pairwise different
    names, and no regular file ever stands in the place of the
    directory of the user, so that no call of the interface raises
    [FileExistsError]. *)
Theorem clicks_keep_directories_flat (user_id : string) (cs : list click)
  (w : world) :
  is_component user_id = true ->
  fs_ok w ->
  let w' := run_clicks user_id cs w in
  fs_ok w' /\
  blocked user_id w' = false /\
  flat (session_entries user_id w') = true /\
  distinct (List.map fst (session_entries user_id w')) = true /\
  Forall (fun e => is_component (fst e) = true) (session_entries user_id w').
Proof.
  intros Hu Hok w'.
  assert (Hok' : fs_ok w') by (by apply run_clicks_fs_ok).
  destruct (fs_ok_session user_id w' Hok') as (Hb & Hflat & Hdist & _ & Hwf).
  split; [exact Hok'|]. split; [exact Hb|]. split; [exact Hflat|].
  split; [exact Hdist|].
  unfold session_entries in *.
  destruct (fs w' !! user_id) as [[d|es]|]; try constructor.
  specialize (Hwf (Dir es) eq_refl).
  eapply Forall_impl; [exact (wf_node_dir es Hwf)|].
  by intros e [? _].
Qed.

End Clicks.

Lemma search_leaves_no_trace_witness :
  is_component Demo.bob = true /\
  is_component Demo.alice = true /\
  fst (run_search Demo.bob "fox"
         (snd (run_search Demo.alice "brown fox" Demo.both_world)))
  = fst (run_search Demo.bob "fox" Demo.both_world) /\
  snd (run_search Demo.bob "fox" (snd (run_search Demo.bob "fox" Demo.both_world)))
  = snd (run_search Demo.bob "fox" Demo.both_world).
Proof.
  split; [reflexivity|]. split; [reflexivity|].
  exact (search_leaves_no_trace Demo.bob "fox" Demo.alice "brown fox"
           Demo.both_world eq_refl eq_refl).
Defined.

Lemma conversion_error_fails_search_witness :
  let e := HaystackError "pdftotext is not installed" in
  is_component Demo.alice = true /\
  blocked Demo.alice Faulty.scan_world = false /\
  list_session_files (H := Faulty.haystack) Demo.alice Faulty.scan_world
  = [(Demo.alice_dir, "doc.txt", read Demo.fox)]
    ++ (Demo.alice_dir, "scan.PDF", read Faulty.scan) :: [] /\
  contributions (H := Faulty.haystack) [(Demo.alice_dir, "doc.txt", read Demo.fox)]
  = Ok [Demo.fox_doc] /\
  load_file (H := Faulty.haystack) Demo.alice_dir "scan.PDF" (read Faulty.scan)
  = Raise e /\
  run_search (H := Faulty.haystack) Demo.alice "fox" Faulty.scan_world
  = (Raise e, Faulty.scan_world) /\
  document_store
    (snd (run_search (H := Faulty.haystack) Demo.alice "fox" Faulty.scan_world))
  = [Demo.fox_doc].
Proof.
  intros e.
  assert (Hb : blocked Demo.alice Faulty.scan_world = false)
    by (vm_compute; reflexivity).
  assert (Hl : list_session_files (H := Faulty.haystack) Demo.alice Faulty.scan_world
               = [(Demo.alice_dir, "doc.txt", read Demo.fox)]
                 ++ (Demo.alice_dir, "scan.PDF", read Faulty.scan) :: [])
    by (vm_compute; reflexivity).
  assert (Hp : contributions (H := Faulty.haystack)
                 [(Demo.alice_dir, "doc.txt", read Demo.fox)] = Ok [Demo.fox_doc])
    by (vm_compute; reflexivity).
  assert (Hf : load_file (H := Faulty.haystack) Demo.alice_dir "scan.PDF"
                 (read Faulty.scan) = Raise e)
    by (vm_compute; reflexivity).
  split; [reflexivity|]. split; [exact Hb|]. split; [exact Hl|].
  split; [exact Hp|]. split; [exact Hf|].
  exact (conversion_error_fails_search (H := Faulty.haystack) Demo.alice "fox"
           Faulty.scan_world _ _ _ _ _ _ e eq_refl Hb Hl Hp Hf).
Defined.

Lemma pipeline_error_after_reindex_witness :
  let e := HaystackError "empty query" in
  is_component Demo.alice = true /\
  blocked Demo.alice Demo.alice_world = false /\
  contributions (H := Faulty.haystack)
    (list_session_files (H := Faulty.haystack) Demo.alice Demo.alice_world)
  = Ok [Demo.fox_doc] /\
  pipeline_run (Haystack := Faulty.haystack) [Demo.fox_doc] "" 10 5 = Raise e /\
  run_search (H := Faulty.haystack) Demo.alice "" Demo.alice_world
  = (Raise e, mkWorld (fs Demo.alice_world) [Demo.fox_doc]).
Proof.
  intros e.
  assert (Hb : blocked Demo.alice Demo.alice_world = false)
    by (vm_compute; reflexivity).
  assert (Hd : contributions (H := Faulty.haystack)
                 (list_session_files (H := Faulty.haystack) Demo.alice
                    Demo.alice_world) = Ok [Demo.fox_doc])
    by (vm_compute; reflexivity).
  assert (Hp : pipeline_run (Haystack := Faulty.haystack) [Demo.fox_doc] "" 10 5
               = Raise e) by reflexivity.
  split; [reflexivity|]. split; [exact Hb|]. split; [exact Hd|].
  split; [exact Hp|].
  exact (pipeline_error_after_reindex (H := Faulty.haystack) Demo.alice ""
           Demo.alice_world [Demo.fox_doc] e eq_refl Hb Hd Hp).
Defined.

Lemma other_formats_find_nothing_witness :
  let w := snd (add_files Demo.alice [Demo.notes] Demo.empty_world) in
  is_component Demo.alice = true /\
  blocked Demo.alice w = false /\
  list_session_files Demo.alice w = [(Demo.alice_dir, "notes.md", read Demo.notes)] /\
  pipeline_run [] "brown fox" 10 5 = Ok [] /\
  run_search Demo.alice "brown fox" w
  = (Ok "Aucun passage trouvé.", mkWorld (fs w) []).
Proof.
  intros w.
  assert (Hb : blocked Demo.alice w = false) by (vm_compute; reflexivity).
  assert (Hl : list_session_files Demo.alice w
               = [(Demo.alice_dir, "notes.md", read Demo.notes)])
    by (vm_compute; reflexivity).
  assert (Ho : Forall (fun e => accepted (snd (fst e)) = false)
                 (list_session_files Demo.alice w)).
  { rewrite Hl. repeat constructor. }
  assert (Hp : pipeline_run [] "brown fox" 10 5 = Ok []) by reflexivity.
  split; [reflexivity|]. split; [exact Hb|]. split; [exact Hl|].
  split; [exact Hp|].
  exact (other_formats_find_nothing Demo.alice "brown fox" w eq_refl Hb Ho Hp).
Defined.

Lemma no_passage_means_no_answer_witness :
  is_component Demo.alice = true /\
  fst (search_answers Demo.alice "cat" Demo.alice_world) = Ok [] /\
  fst (run_search Demo.alice "cat" Demo.alice_world) = Ok "Aucun passage trouvé.".
Proof.
  assert (Hans : fst (search_answers Demo.alice "cat" Demo.alice_world) = Ok [])
    by (vm_compute; reflexivity).
  split; [reflexivity|]. split; [exact Hans|].
  exact (proj2 (proj1 (no_passage_means_no_answer Demo.alice "cat"
                         Demo.alice_world eq_refl)) Hans).
Defined.

Lemma clicks_touch_one_directory_witness :
  is_component Demo.bob = true /\
  Demo.alice ≠ Demo.bob /\
  fs (run_clicks Demo.bob
        [upload_button [Demo.fox; Demo.notes]; search_button "fox"; delete_button]
        Demo.alice_world) !! Demo.alice
  = fs Demo.alice_world !! Demo.alice.
Proof.
  assert (Hne : Demo.alice ≠ Demo.bob) by discriminate.
  split; [reflexivity|]. split; [exact Hne|].
  exact (clicks_touch_one_directory Demo.bob
           [upload_button [Demo.fox; Demo.notes]; search_button "fox"; delete_button]
           Demo.alice_world eq_refl Demo.alice Hne).
Defined.

Lemma clicks_keep_directories_flat_witness :
  let w' := run_clicks Demo.alice
              [upload_button [Demo.upload "../../etc/passwd" "root"; Demo.fox];
               search_button "fox";
               upload_button [Demo.upload "/tmp/gradio/" "lost"]]
              Demo.empty_world in
  is_component Demo.alice = true /\
  fs_ok Demo.empty_world /\
  blocked Demo.alice w' = false /\
  flat (session_entries Demo.alice w') = true /\
  List.map fst (session_entries Demo.alice w') = ["passwd"; "doc.txt"].
Proof.
  intros w'.
  assert (Hok : fs_ok Demo.empty_world).
  { intros u n Hn. vm_compute in Hn. discriminate. }
  destruct (clicks_keep_directories_flat Demo.alice
              [upload_button [Demo.upload "../../etc/passwd" "root"; Demo.fox];
               search_button "fox";
               upload_button [Demo.upload "/tmp/gradio/" "lost"]]
              Demo.empty_world eq_refl Hok) as (_ & Hb & Hflat & _).
  split; [reflexivity|]. split; [exact Hok|]. split; [exact Hb|].
  split; [exact Hflat|]. vm_compute. reflexivity.
Defined.

(** ** Extensions *)

Section Extensions.

Context `{H : Haystack}.

Lemma rfind_go_absent (c : ascii) (s : string) (i last : Z) :
  OsPath.contains c s = false -> OsPath.rfind_go c s i last = last.
Proof.
  revert i last. induction s as [|x s IH]; intros i last; simpl; [reflexivity|].
  intros [Hx Hs]%orb_false_elim. rewrite Hx. by apply IH.
Qed.

Lemma rfind_go_app (c : ascii) (a b : string) (i last : Z) :
  OsPath.rfind_go c (a +:+ b) i last
  = OsPath.rfind_go c b (i + Z.of_nat (String.length a))%Z
      (OsPath.rfind_go c a i last).
Proof.
  revert i last. induction a as [|x a IH]; intros i last.
  - rewrite str_app_nil_l. simpl. by rewrite Z.add_0_r.
  - rewrite str_app_cons. simpl OsPath.rfind_go. rewrite IH.
    f_equal. simpl String.length. lia.
Qed.

Lemma rfind_last (c : ascii) (a b : string) :
  OsPath.contains c b = false ->
  OsPath.rfind c (a +:+ String c b) = Z.of_nat (String.length a).
Proof.
  intros Hb. unfold OsPath.rfind. rewrite rfind_go_app. simpl.
  rewrite Ascii.eqb_refl. by apply rfind_go_absent.
Qed.

Lemma take_app_length (a b : string) : Py.take (String.length a) (a +:+ b) = a.
Proof.
  induction a as [|x a IH]; [by destruct b|].
  rewrite str_app_cons. simpl. by rewrite IH.
Qed.

Lemma drop_app_length (a b : string) : Py.drop (String.length a) (a +:+ b) = b.
Proof. induction a as [|x a IH]; [reflexivity|exact IH]. Qed.

Lemma take_drop (n : nat) (p : string) : Py.take n p +:+ Py.drop n p = p.
Proof.
  revert p. induction n as [|n IH]; intros p; [reflexivity|].
  destruct p as [|x p]; [reflexivity|].
  simpl. by rewrite str_app_cons, IH.
Qed.

Lemma splitext_dotted (stem e : string) :
  OsPath.contains OsPath.sep stem = false ->
  OsPath.contains OsPath.sep e = false ->
  OsPath.contains OsPath.extsep e = false ->
  OsPath.splitext (stem +:+ String OsPath.extsep e)
  = if OsPath.all_chars OsPath.extsep stem
    then (stem +:+ String OsPath.extsep e, "")
    else (stem, String OsPath.extsep e).
Proof.
  intros Hstem He Hdot. unfold OsPath.splitext.
  assert (Hsep : OsPath.rfind OsPath.sep (stem +:+ String OsPath.extsep e) = (-1)%Z).
  { apply rfind_go_absent. rewrite contains_app, Hstem. simpl. exact He. }
  rewrite Hsep, rfind_last by exact Hdot.
  assert (Hlt : (-1 <? Z.of_nat (String.length stem))%Z = true)
    by (apply Z.ltb_lt; lia).
  rewrite Hlt, Nat2Z.id. simpl Z.to_nat. simpl Py.drop at 1.
  rewrite Nat.sub_0_r, take_app_length, drop_app_length.
  reflexivity.
Qed.

Lemma lower_dotted (e : string) :
  Py.lower (String OsPath.extsep e) = String OsPath.extsep (Py.lower e).
Proof. reflexivity. Qed.

(** X17: how a file name picks its converter in the loop of
    [run_search].  [os.path.splitext] cuts a name in two parts that
    make the name again.  For a name made of a stem, a dot and a last
    part without dot or separator: when the stem holds a character
    other than a dot, the extension is the dot and the last part, and
    the loop body converts the file with [PDFToTextConverter] when
    the last part is [pdf] in any mix of cases, with [TextConverter]
    when it is [txt], with [DocxToTextConverter] when it is [docx],
    and gives no document otherwise, so that the file is loaded
    exactly when its format is an accepted one; when the stem is
    empty or made of dots, as in [.txt], the name has no extension,
    its format is not accepted and the file gives no document.  In a session that holds this one file, the
    load step of a search is that loop body, and what it gives is
    what the index holds after the search. *)
Theorem extension_of_name (stem e r : string) (data : list byte) :
  OsPath.contains OsPath.sep stem = false ->
  OsPath.contains OsPath.sep e = false ->
  OsPath.contains OsPath.extsep e = false ->
  let file := stem +:+ String OsPath.extsep e in
  let convert_with (conv : converter) : outcome (list Document) :=
    doc ← conv (OsPath.join r file) data
             (<["name" := file]> (<["path" := OsPath.join r file]> ∅));
    process [doc] in
  (forall p, fst (OsPath.splitext p) +:+ snd (OsPath.splitext p) = p) /\
  (OsPath.all_chars OsPath.extsep stem = false ->
   OsPath.splitext file = (stem, String OsPath.extsep e) /\
   accepted file =
   (String.eqb (Py.lower e) "pdf" || String.eqb (Py.lower e) "txt"
    || String.eqb (Py.lower e) "docx") /\
   load_file r file data =
   if String.eqb (Py.lower e) "pdf" then convert_with PDFToTextConverter
   else if String.eqb (Py.lower e) "txt" then convert_with TextConverter
   else if String.eqb (Py.lower e) "docx" then convert_with DocxToTextConverter
   else Ok []) /\
  (OsPath.all_chars OsPath.extsep stem = true ->
   OsPath.splitext file = (file, "") /\
   accepted file = false /\
   load_file r file data = Ok []) /\
  (forall u q w,
      is_component u = true ->
      blocked u w = false ->
      list_session_files u w = [(r, file, data)] ->
      fst (load_session u w) = load_file r file data /\
      forall docs,
        load_file r file data = Ok docs ->
        document_store (snd (run_search u q w)) = docs).
Proof.
  intros Hstem He Hdot file convert_with. split; [|split; [|split]].
  - intros p. unfold OsPath.splitext.
    destruct (_ <? _)%Z; [|apply str_app_nil_r].
    destruct (OsPath.all_chars _ _); [apply str_app_nil_r|apply take_drop].
  - intros Hall.
    assert (Hsplit : OsPath.splitext file = (stem, String OsPath.extsep e)).
    { unfold file. by rewrite splitext_dotted, Hall. }
    split; [exact Hsplit|]. split.
    { rewrite accepted_lower, Hsplit. simpl snd. cbv zeta.
      rewrite lower_dotted. reflexivity. }
    unfold load_file. rewrite Hsplit. simpl snd.
    rewrite lower_dotted, converters_lookup.
    change (String.eqb (String OsPath.extsep (Py.lower e)) ".pdf")
      with (String.eqb (Py.lower e) "pdf").
    change (String.eqb (String OsPath.extsep (Py.lower e)) ".txt")
      with (String.eqb (Py.lower e) "txt").
    change (String.eqb (String OsPath.extsep (Py.lower e)) ".docx")
      with (String.eqb (Py.lower e) "docx").
    destruct (String.eqb (Py.lower e) "pdf"); [reflexivity|].
    destruct (String.eqb (Py.lower e) "txt"); [reflexivity|].
    destruct (String.eqb (Py.lower e) "docx"); reflexivity.
  - intros Hall.
    assert (Hsplit : OsPath.splitext file = (file, "")).
    { unfold file. by rewrite splitext_dotted, Hall. }
    split; [exact Hsplit|]. split.
    { by rewrite accepted_lower, Hsplit. }
    unfold load_file. rewrite Hsplit. simpl snd.
    by rewrite converters_lookup.
  - intros u q w _ Hb Hlist.
    assert (Hload : fst (load_session u w) = load_file r file data).
    { rewrite load_session_run, Hb, Hlist. simpl.
      destruct (load_file r file data) as [docs|e0]; simpl; [|reflexivity].
      by rewrite app_nil_r. }
    split; [exact Hload|].
    intros docs Hdocs. rewrite Hdocs in Hload.
    rewrite run_search_run, search_answers_run.
    destruct (load_session u w) as [[docs'|e0] w1]; simpl in Hload;
      [|discriminate].
    inversion Hload; subst docs'.
    destruct (pipeline_run docs q 10 5); reflexivity.
Qed.

End Extensions.

Lemma extension_of_name_witness :
  OsPath.contains OsPath.sep "report.final" = false /\
  OsPath.contains OsPath.sep "PdF" = false /\
  OsPath.contains OsPath.extsep "PdF" = false /\
  OsPath.splitext "report.final.PdF" = ("report.final", ".PdF") /\
  load_file (H := Faulty.haystack) Demo.alice_dir "report.final.PdF" (read Demo.fox)
  = Raise (HaystackError "pdftotext is not installed") /\
  load_file (H := Faulty.haystack) Demo.alice_dir "report.final.TXT" (read Demo.fox)
  = Ok [mkDocument "The quick brown fox jumps over the lazy dog."
          (<["name" := "report.final.TXT"]>
             (<["path" := Demo.alice_dir +:+ "/report.final.TXT"]> ∅))] /\
  OsPath.all_chars OsPath.extsep "" = true /\
  OsPath.splitext ".txt" = (".txt", "") /\
  load_file (H := Faulty.haystack) Demo.alice_dir ".txt" (read Demo.fox) = Ok [].
Proof.
  destruct (extension_of_name (H := Faulty.haystack) "" "txt"
              Demo.alice_dir (read Demo.fox) eq_refl eq_refl eq_refl)
    as (_ & _ & Hdots & _).
  destruct (Hdots eq_refl) as (Hsplit0 & _ & Hload0).
  destruct (extension_of_name (H := Faulty.haystack) "report.final" "PdF"
              Demo.alice_dir (read Demo.fox) eq_refl eq_refl eq_refl)
    as (_ & Hpdf & _).
  destruct (Hpdf eq_refl) as (Hsplit & _ & Hload).
  destruct (extension_of_name (H := Faulty.haystack) "report.final" "TXT"
              Demo.alice_dir (read Demo.fox) eq_refl eq_refl eq_refl)
    as (_ & Htxt & _).
  destruct (Htxt eq_refl) as (_ & _ & Hload').
  split; [reflexivity|]. split; [reflexivity|]. split; [reflexivity|].
  split; [exact Hsplit|].
  split; [exact (eq_trans Hload eq_refl)|].
  split; [exact (eq_trans Hload' eq_refl)|].
  split; [reflexivity|]. split; [exact Hsplit0|exact Hload0].
Defined.

(** ** How the calls compose *)

Section Composition.

Context `{H : Haystack}.

Lemma open_wb_write_keeps_dir (u nm : string) (d : list byte) (w : world) :
  blocked u w = false -> blocked u (snd (open_wb_write u nm d w)) = false.
Proof.
  intros Hb. unfold open_wb_write.
  destruct (OsPath.contains NUL nm); [exact Hb|].
  destruct (_ || _); [exact Hb|].
  destruct (fs w !! u) as [[d0|es]|] eqn:Hdir; [exact Hb| |exact Hb].
  destruct (entry_lookup nm es) as [[d0|sub]|]; simpl; [|exact Hb|];
    unfold blocked; simpl; by rewrite lookup_insert_eq.
Qed.

Lemma for_each_keeps_dir (u : string) (files : list UploadedFile) (w : world) :
  blocked u w = false ->
  blocked u (snd (for_each files (fun file =>
                    open_wb_write u (OsPath.basename (name file)) (read file)) w))
  = false.
Proof.
  revert w. induction files as [|f rest IH]; intros w Hb; simpl; [exact Hb|].
  rewrite bind_run.
  pose proof (open_wb_write_keeps_dir u (OsPath.basename (name f)) (read f) w Hb)
    as Hstep.
  destruct (open_wb_write u _ _ w) as [[[]|e] w1]; simpl in *.
  - by apply IH.
  - exact Hstep.
Qed.

Lemma add_files_keeps_dir (u : string) (files : list UploadedFile) (w : world) :
  blocked u w = false -> blocked u (snd (add_files u files w)) = false.
Proof.
  intros Hb. unfold add_files. rewrite bind_run, get_user_dir_run, Hb.
  rewrite bind_run.
  assert (Hb' : blocked u (with_user_dir u w) = false)
    by (by rewrite blocked_with_user_dir).
  pose proof (for_each_keeps_dir u files (with_user_dir u w) Hb') as Hloop.
  destruct (for_each files _ (with_user_dir u w)) as [[[]|e] w1];
    simpl in *; exact Hloop.
Qed.

(** X18: [delete_files] forgets every upload.  After an [add_files]
    of any list of files, whether it returned or raised half way,
    [delete_files] returns its message and leaves the very world it
    leaves without that [add_files]. *)
Theorem delete_after_upload (u : string) (files : list UploadedFile) (w : world) :
  is_component u = true ->
  blocked u w = false ->
  delete_files u (snd (add_files u files w)) = delete_files u w /\
  fst (delete_files u w) = Ok "Tous les fichiers ont été supprimés.".
Proof.
  intros _ Hb.
  rewrite !delete_files_run by (exact Hb || by apply add_files_keeps_dir).
  split; [|reflexivity].
  rewrite add_files_store. do 2 f_equal.
  apply map_eq. intros s.
  destruct (decide (u = s)) as [<-|Hne].
  - by rewrite !lookup_insert_eq.
  - rewrite !lookup_insert_ne by exact Hne. by apply add_files_frame.
Qed.

(** X19: a search right after [delete_files] finds nothing: with a
    pipeline that answers nothing on an empty index it returns "Aucun
    passage trouvé." and leaves the index empty, whatever the
    session and the index held before. *)
Theorem search_after_clear (u q : string) (w : world) :
  is_component u = true ->
  blocked u w = false ->
  pipeline_run [] q 10 5 = Ok [] ->
  exists w1,
    delete_files u w = (Ok "Tous les fichiers ont été supprimés.", w1) /\
    run_search u q w1 = (Ok "Aucun passage trouvé.", mkWorld (fs w1) []).
Proof.
  intros _ Hb Hpipe. eexists. split; [by apply delete_files_run|].
  set (w1 := mkWorld (<[u := Dir []]> (fs w)) (document_store w)).
  assert (Hdir : fs w1 !! u = Some (Dir [])).
  { unfold w1. simpl. apply lookup_insert_eq. }
  rewrite run_search_run, search_answers_run, load_session_run.
  unfold blocked, list_session_files, session_walk. rewrite Hdir. simpl.
  rewrite Hpipe. simpl. do 2 f_equal.
  rewrite with_user_dir_id; [reflexivity|]. rewrite Hdir. by eexists.
Qed.




(** X21: a user id of the shape [str(uuid.uuid4())] gives, 36
    characters of lower case hexadecimal digits and dashes, is a
    usable name: the directory of the user is the sessions
    directory, a separator and the id, and the base name of that
    path is the id. *)
Theorem uuid_user_id_is_usable (s : string) :
  is_uuid_text s = true ->
  is_component s = true /\
  String.length s = 36 /\
  OsPath.join SESSIONS_DIR s = SESSIONS_DIR +:+ String OsPath.sep s /\
  OsPath.basename (OsPath.join SESSIONS_DIR s) = s.
Proof.
  intros Huuid.
  pose proof (uuid_is_component s Huuid) as Hc.
  destruct (uuid_from_facts s 0 Huuid) as (Hsep & _ & Hlen).
  destruct (user_dir_clean s Hc) as [Hpath _].
  split; [exact Hc|]. split; [exact Hlen|]. split; [exact Hpath|].
  rewrite Hpath. by apply basename_after_sep.
Qed.

End Composition.

Lemma delete_after_upload_witness :
  is_component Demo.alice = true /\
  blocked Demo.alice Demo.alice_world = false /\
  delete_files Demo.alice
    (snd (add_files Demo.alice
            [Demo.notes; Demo.upload "/tmp/gradio/" "lost"] Demo.alice_world))
  = delete_files Demo.alice Demo.alice_world.
Proof.
  assert (Hb : blocked Demo.alice Demo.alice_world = false)
    by (vm_compute; reflexivity).
  split; [reflexivity|]. split; [exact Hb|].
  exact (proj1 (delete_after_upload Demo.alice
                  [Demo.notes; Demo.upload "/tmp/gradio/" "lost"]
                  Demo.alice_world eq_refl Hb)).
Defined.

Lemma search_after_clear_witness :
  is_component Demo.alice = true /\
  blocked Demo.alice Faulty.scan_world = false /\
  pipeline_run [] "fox" 10 5 = Ok [] /\
  exists w1,
    delete_files Demo.alice Faulty.scan_world
    = (Ok "Tous les fichiers ont été supprimés.", w1) /\
    run_search Demo.alice "fox" w1 = (Ok "Aucun passage trouvé.", mkWorld (fs w1) []).
Proof.
  assert (Hb : blocked Demo.alice Faulty.scan_world = false)
    by (vm_compute; reflexivity).
  assert (Hp : pipeline_run [] "fox" 10 5 = Ok []) by reflexivity.
  split; [reflexivity|]. split; [exact Hb|]. split; [exact Hp|].
  exact (search_after_clear Demo.alice "fox" Faulty.scan_world eq_refl Hb Hp).
Defined.


Lemma uuid_user_id_is_usable_witness :
  is_uuid_text Demo.bob = true /\
  is_component Demo.bob = true /\
  OsPath.join SESSIONS_DIR Demo.bob = Demo.bob_dir.
Proof.
  destruct (uuid_user_id_is_usable Demo.bob eq_refl) as (Hc & _ & Hpath & _).
  split; [reflexivity|]. split; [exact Hc|exact Hpath].
Defined.
